(** * train_loops.py: the Sinkhorn-VAE training loop and its Ray Tune search

    A shallow embedding of [src/train_loops.py].  The Python function
    [train_sinkhorn_vae] is a generator: one trial of the hyperparameter
    search.  Its library calls (torch, geomloss, the repository's own
    [models], [datasets] and [side_information] modules, none of which is
    part of this file's source) are the fields of the interface [Torch];
    everything the function itself does -- device selection, the loss
    combination, the accumulators, the confusion counts, the metric
    divisions and the epoch loop -- is written out.

    Python floats are binary64 values ([PrimFloat.float]); Python ints are
    [Z].  Effects of the libraries (the global random generator, files, the
    hub cache) are threaded through an opaque [world]. *)

From Stdlib Require Import ZArith List String Bool Lia.
From Stdlib Require Import Floats.
From stdpp Require Import gmap.
Import ListNotations.

Set Warnings "-inexact-float,-clear-no-such-hyp".

Local Open Scope Z_scope.
Local Open Scope string_scope.

(** ** Python numbers and exceptions *)

Module Py.

(** The two exceptions the body of [train_sinkhorn_vae] can raise by itself. *)
Inductive exn : Type :=
| ZeroDivisionError
| NameError.

Definition result (A : Type) : Type := (exn + A)%type.

Definition ok {A : Type} (a : A) : result A := inr a.
Definition raise {A : Type} (e : exn) : result A := inl e.

Definition bind {A B : Type} (r : result A) (k : A -> result B) : result B :=
  match r with
  | inl e => inl e
  | inr a => k a
  end.

(** [float(n)] for an int in the range of the counters of this program
    (0 <= n < 2^63; the conversion is exact below 2^53). *)
Definition float_of_int (n : Z) : float := PrimFloat.of_uint63 (Uint63.of_Z n).

(** [a / b] on two ints: true division, [ZeroDivisionError] on [b == 0]. *)
Definition int_truediv (a b : Z) : result float :=
  if (b =? 0)%Z then raise ZeroDivisionError
  else ok (PrimFloat.div (float_of_int a) (float_of_int b)).

(** [x / b] with [x] a float and [b] an int. *)
Definition float_div_int (x : float) (b : Z) : result float :=
  if (b =? 0)%Z then raise ZeroDivisionError
  else ok (PrimFloat.div x (float_of_int b)).

(** [a / y] with [a] an int and [y] a float. *)
Definition int_div_float (a : Z) (y : float) : result float :=
  if PrimFloat.eqb y 0%float then raise ZeroDivisionError
  else ok (PrimFloat.div (float_of_int a) y).

(** [a + y] with [a] an int and [y] a float. *)
Definition int_add_float (a : Z) (y : float) : float :=
  PrimFloat.add (float_of_int a) y.

(** [range(n)] has no element when [n <= 0]. *)
Definition range_len (n : Z) : nat := Z.to_nat n.

(** A dict literal keeps its keys in the order they are written. *)
Definition dict (V : Type) : Type := list (string * V).

Fixpoint get {V : Type} (d : dict V) (k : string) : option V :=
  match d with
  | [] => None
  | (k', v) :: d' => if String.eqb k' k then Some v else get d' k
  end.

Definition keys {V : Type} (d : dict V) : list string := List.map fst d.

End Py.

Notation "'try!' x ':=' r 'in' k" := (Py.bind r (fun x => k))
  (at level 10, x name, r at level 100, k at level 200).

(** ** Boolean tensors

    The comparisons of lines 128-132 produce boolean tensors; they are kept
    as the flat list of their elements. *)

Module BoolTensor.

(** [t == x] for a boolean tensor and a Python float: [True] compares as
    1.0 and [False] as 0.0. *)
Definition eq_scalar (t : list bool) (x : float) : list bool :=
  List.map (fun b : bool => PrimFloat.eqb (if b then 1%float else 0%float) x) t.

(** [a & b], elementwise, for two tensors of one shape (here that of the
    batch's features). *)
Definition and (a b : list bool) : list bool :=
  List.map (fun p : bool * bool => fst p && snd p) (List.combine a b).

(** [t.sum().item()]: the number of [True] elements, a Python int. *)
Definition sum (t : list bool) : Z :=
  Z.of_nat (List.length (List.filter (fun b : bool => b) t)).

End BoolTensor.

(** ** The configuration dict

    [config] is the resolved configuration of one trial.  The nested dict is
    a nested record; a field is named after its path of keys. *)

Module Config.

Record config_dataset : Type := {
  dataset_context : bool;
  dataset_directory : string;
  dataset_side_information_file_paths : list string;
  dataset_batch_size : Z
}.

Record config_model : Type := {
  model_latent_dims : Z;
  model_softmax : bool
}.

Record config_adam : Type := {
  adam_learning_rate : float;
  adam_betas : float * float
}.

Record config_losses : Type := {
  distribution_type : string;
  distribution_p : Z;
  distribution_blur : float;
  distribution_alpha : float;
  distribution_weight : float;
  class_bias : float;
  class_weight : float;
  class_threshold : float;
  reconstruction_weight : float
}.

Record config_training : Type := {
  training_max_epochs : Z;
  training_batch_size : Z
}.

Record t : Type := {
  device : string;
  dataset : config_dataset;
  model : config_model;
  adam : config_adam;
  losses : config_losses;
  training : config_training;
  latent_space_noise_std : float
}.

End Config.

Definition bert_embedding_size : Z := 768.

(** ** The libraries

    What [train_loops.py] imports and calls.  [world] is the state these
    calls read and change behind the program's back: torch's global random
    generator, the file system, the hub cache.  A call that draws random
    numbers or touches files takes a [world] and returns the next one. *)

Class Torch : Type := {
  tensor : Type;
  world : Type;
  (* models.VAE *)
  vae : Type;
  VAE : Z -> Z -> Z -> bool -> world -> vae * world;
  vae_to : string -> vae -> vae;
  encode : vae -> tensor -> tensor * tensor;
  reparameterize : vae -> tensor -> tensor -> world -> tensor * world;
  decoder : vae -> tensor -> tensor;
  feature_head : vae -> tensor -> tensor;
  (* torch.optim.Adam over the model's parameters, and autograd *)
  optim : Type;
  Adam : vae -> float -> float * float -> optim;
  zero_grad : vae -> optim -> vae;
  backward : tensor -> vae -> vae;
  optimizer_step : vae -> optim -> vae * optim;
  (* checkpoints *)
  state_dict : Type;
  os_path_join : string -> string -> string;
  torch_load : string -> world -> state_dict * state_dict;
  vae_load_state_dict : vae -> state_dict -> vae;
  optimizer_load_state_dict : optim -> state_dict -> optim;
  (* tensors *)
  torch_cuda_is_available : world -> bool;
  torch_tensor : list float -> tensor;
  torch_normal : float -> float -> list Z -> world -> tensor * world;
  tensor_shape : tensor -> list Z;
  tensor_to : string -> tensor -> tensor;
  tensor_float : tensor -> tensor;
  tensor_add : tensor -> tensor -> tensor;
  tensor_mul : tensor -> float -> tensor;
  tensor_rdiv : float -> tensor -> tensor;
  tensor_item : tensor -> float;
  tensor_ge : tensor -> float -> list bool;
  tensor_eq : tensor -> float -> list bool;
  (* loss functions *)
  SamplesLoss : string -> Z -> float -> tensor -> tensor -> tensor;
  MSELoss : tensor -> tensor -> tensor;
  BCEWithLogitsLoss : tensor -> tensor -> tensor -> tensor;
  (* torch.distributions.dirichlet *)
  dirichlet : Type;
  Dirichlet : tensor -> dirichlet;
  dirichlet_sample : dirichlet -> list Z -> world -> tensor * world;
  (* the data: torch.hub, datasets, side_information, DataLoader *)
  hub_object : Type;
  preprocessing : Type;
  side_information : Type;
  iron_march : Type;
  sampler : Type;
  data_loader : Type;
  batch_t : Type;
  FileLock_acquire : string -> world -> world;
  FileLock_release : string -> world -> world;
  SideLoader : list string -> side_information;
  torch_hub_load : string -> string -> string -> world -> hub_object * world;
  BertPreprocess : hub_object -> hub_object -> string -> preprocessing;
  IronMarch : string -> preprocessing -> side_information -> bool -> bool ->
              world -> iron_march * world;
  split_validation : iron_march -> float -> world -> (sampler * sampler) * world;
  DataLoader : iron_march -> Z -> sampler -> data_loader;
  get_class_proportions : iron_march -> tensor;
  iterate : data_loader -> world -> list batch_t * world;
  batch_get : batch_t -> string -> tensor
}.

(** ** The trial: [train_sinkhorn_vae] *)

(** The values bound to the local names of one pass through a loop body
    (lines 70-89 and 106-121); [model] is the model object as the forward
    pass of that step sees it. *)
Record step `{Torch} : Type := {
  model : vae;
  features : tensor;
  posts : tensor;
  eps : tensor;
  logits : tensor;
  feature_predictions : tensor;
  sampled_dirichlet : tensor;
  distribution_loss : tensor;
  reconstruction_loss : tensor;
  class_loss : tensor;
  loss : tensor
}.

(** The eight accumulators of lines 94-102. *)
Record accum : Type := {
  loss_accum : float;
  class_accum : float;
  dist_accum : float;
  recon_accum : float;
  tp_accum : Z;
  fp_accum : Z;
  tn_accum : Z;
  fn_accum : Z
}.

(** The locals that live across the loops: the model and optimizer objects,
    and [batch_num], which is unbound until a loop body has run once. *)
Record locals `{Torch} : Type := {
  l_model : vae;
  l_optimizer : optim;
  l_batch_num : option Z
}.

(** What a consumer that drains the generator observes: the lines printed,
    the dicts yielded in order, and how the generator ended ([None]: it
    returned; [Some e]: it raised [e]).  [train_steps] and [val_steps] list
    the loop bodies executed, in order, and [epoch_log] the values of
    [batch_num] and of the accumulators at each [yield] expression
    evaluated. *)
Record trial_run `{Torch} : Type := {
  printed : list string;
  yields : list (Py.dict float);
  train_steps : list step;
  val_steps : list step;
  epoch_log : list (option Z * accum);
  raised : option Py.exn
}.

Section Trial.

Context `{Torch}.

(** Lines 146-169. *)
Definition get_datasets (config : Config.t) (w : world)
  : (data_loader * data_loader * tensor) * world :=
  let w := FileLock_acquire (Config.dataset_directory (Config.dataset config) ++ ".lock") w in
  let side_information_file_paths :=
    Config.dataset_side_information_file_paths (Config.dataset config) in
  let side_information_loader := SideLoader side_information_file_paths in
  let '(bert_tokenizer, w) :=
    torch_hub_load "huggingface/pytorch-transformers" "tokenizer" "roberta-base" w in
  let '(bert, w) :=
    torch_hub_load "huggingface/pytorch-transformers" "model" "roberta-base" w in
  let preprocessing_fn := BertPreprocess bert bert_tokenizer (Config.device config) in
  let '(dataset_, w) :=
    IronMarch (Config.dataset_directory (Config.dataset config)) preprocessing_fn
      side_information_loader (Config.dataset_context (Config.dataset config)) true w in
  let '((train_sampler, val_sampler), w) := split_validation dataset_ 0.1%float w in
  let train_loader :=
    DataLoader dataset_ (Config.dataset_batch_size (Config.dataset config)) train_sampler in
  let val_loader :=
    DataLoader dataset_ (Config.dataset_batch_size (Config.dataset config)) val_sampler in
  let class_proportions := get_class_proportions dataset_ in
  let w := FileLock_release (Config.dataset_directory (Config.dataset config) ++ ".lock") w in
  ((train_loader, val_loader, class_proportions), w).

(** Lines 27-31: the device the rest of the function uses, and what is
    printed on the way. *)
Definition select_device (config : Config.t) (w : world) : string * list string :=
  let device := Config.device config in
  if String.eqb device "cuda:0" then
    if negb (torch_cuda_is_available w) then
      ("cpu", ["Could not find GPU, reverting to CPU training!"])
    else (device, [])
  else (device, []).

(** Lines 59-66: the three loss functions and the prior. *)
Definition sinkhorn_loss_fn (config : Config.t) : tensor -> tensor -> tensor :=
  SamplesLoss (Config.distribution_type (Config.losses config))
              (Config.distribution_p (Config.losses config))
              (Config.distribution_blur (Config.losses config)).

Definition reconstruction_loss_fn : tensor -> tensor -> tensor := MSELoss.

Definition class_loss_fn (config : Config.t) (class_proportions : tensor)
  : tensor -> tensor -> tensor :=
  BCEWithLogitsLoss
    (tensor_mul (tensor_rdiv 1%float class_proportions) (Config.class_bias (Config.losses config))).

Definition dirichlet_concentration (config : Config.t) : list float :=
  List.map (fun _ : nat => Config.distribution_alpha (Config.losses config))
           (List.seq 0 (Py.range_len (Config.model_latent_dims (Config.model config)))).

Definition dirichlet_distribution (config : Config.t) : dirichlet :=
  Dirichlet (torch_tensor (dirichlet_concentration config)).

(** Lines 70-92: the body of the training loop. *)
Definition train_step (config : Config.t) (device : string) (class_proportions : tensor)
    (model : vae) (optimizer : optim) (batch : batch_t) (w : world)
    : (vae * optim * step) * world :=
  let features := tensor_float (tensor_to device (batch_get batch "features")) in
  let posts := tensor_float (tensor_to device (batch_get batch "posts")) in
  let '(noise, w) :=
    torch_normal 0%float (Config.latent_space_noise_std config) (tensor_shape posts) w in
  let augmented_posts := tensor_add posts (tensor_to device noise) in
  let model := zero_grad model optimizer in
  let '(mean, logvar) := encode model augmented_posts in
  let '(eps, w) := reparameterize model mean logvar w in
  let logits := decoder model eps in
  let feature_predictions := feature_head model eps in
  let '(sample, w) :=
    dirichlet_sample (dirichlet_distribution config)
                     [Config.training_batch_size (Config.training config)] w in
  let sampled_dirichlet := tensor_to device sample in
  let distribution_loss := sinkhorn_loss_fn config eps sampled_dirichlet in
  let reconstruction_loss := reconstruction_loss_fn posts logits in
  let class_loss := class_loss_fn config class_proportions feature_predictions features in
  let loss :=
    tensor_add
      (tensor_add (tensor_mul class_loss (Config.class_weight (Config.losses config)))
                  (tensor_mul distribution_loss (Config.distribution_weight (Config.losses config))))
      (tensor_mul reconstruction_loss (Config.reconstruction_weight (Config.losses config))) in
  let s :=
    {| model := model; features := features; posts := posts; eps := eps; logits := logits;
       feature_predictions := feature_predictions;
       sampled_dirichlet := sampled_dirichlet;
       distribution_loss := distribution_loss;
       reconstruction_loss := reconstruction_loss;
       class_loss := class_loss; loss := loss |} in
  let model := backward loss model in
  let '(model, optimizer) := optimizer_step model optimizer in
  ((model, optimizer, s), w).

(** Lines 106-132: the body of the validation loop. *)
Definition val_step (config : Config.t) (device : string) (class_proportions : tensor)
    (model : vae) (a : accum) (batch : batch_t) (w : world)
  : (accum * step) * world :=
  let features := tensor_float (tensor_to device (batch_get batch "features")) in
  let posts := tensor_float (tensor_to device (batch_get batch "posts")) in
  let '(mean, logvar) := encode model posts in
  let '(eps, w) := reparameterize model mean logvar w in
  let logits := decoder model eps in
  let feature_predictions := feature_head model eps in
  let '(sample, w) :=
    dirichlet_sample (dirichlet_distribution config)
                     [Config.training_batch_size (Config.training config)] w in
  let sampled_dirichlet := tensor_to device sample in
  let distribution_loss := sinkhorn_loss_fn config eps sampled_dirichlet in
  let reconstruction_loss := reconstruction_loss_fn posts logits in
  let class_loss := class_loss_fn config class_proportions feature_predictions features in
  let loss :=
    tensor_add
      (tensor_add (tensor_mul class_loss (Config.class_weight (Config.losses config)))
                  (tensor_mul distribution_loss (Config.distribution_weight (Config.losses config))))
      (tensor_mul reconstruction_loss (Config.reconstruction_weight (Config.losses config))) in
  let binary_predictions :=
    tensor_ge feature_predictions (Config.class_threshold (Config.losses config)) in
  let a :=
    {| loss_accum := PrimFloat.add (loss_accum a) (tensor_item loss);
       class_accum := PrimFloat.add (class_accum a) (tensor_item class_loss);
       dist_accum := PrimFloat.add (dist_accum a) (tensor_item distribution_loss);
       recon_accum := PrimFloat.add (recon_accum a) (tensor_item reconstruction_loss);
       tp_accum := tp_accum a +
         BoolTensor.sum (BoolTensor.and (BoolTensor.eq_scalar binary_predictions 1%float)
                                        (tensor_eq features 1%float));
       fp_accum := fp_accum a +
         BoolTensor.sum (BoolTensor.and (BoolTensor.eq_scalar binary_predictions 1%float)
                                        (tensor_eq features 0%float));
       tn_accum := tn_accum a +
         BoolTensor.sum (BoolTensor.and (BoolTensor.eq_scalar binary_predictions 0%float)
                                        (tensor_eq features 0%float));
       fn_accum := fn_accum a +
         BoolTensor.sum (BoolTensor.and (BoolTensor.eq_scalar binary_predictions 0%float)
                                        (tensor_eq features 1%float)) |} in
  ((a,
    {| model := model; features := features; posts := posts; eps := eps; logits := logits;
       feature_predictions := feature_predictions;
       sampled_dirichlet := sampled_dirichlet;
       distribution_loss := distribution_loss;
       reconstruction_loss := reconstruction_loss;
       class_loss := class_loss; loss := loss |}), w).

(** [for batch_num, batch in enumerate(train_loader)], from index [i] on. *)
Fixpoint train_loop (config : Config.t) (device : string) (class_proportions : tensor)
    (batches : list batch_t) (i : Z) (l : locals) (w : world)
  : (locals * list step) * world :=
  match batches with
  | [] => ((l, []), w)
  | batch :: rest =>
      let '((model, optimizer, s), w) :=
        train_step config device class_proportions (l_model l) (l_optimizer l) batch w in
      let l := {| l_model := model; l_optimizer := optimizer; l_batch_num := Some i |} in
      let '((l, ss), w) := train_loop config device class_proportions rest (i + 1) l w in
      ((l, s :: ss), w)
  end.

(** [for batch_num, batch in enumerate(val_loader)], from index [i] on. *)
Fixpoint val_loop (config : Config.t) (device : string) (class_proportions : tensor)
    (batches : list batch_t) (i : Z) (l : locals) (a : accum) (w : world)
  : (locals * accum * list step) * world :=
  match batches with
  | [] => ((l, a, []), w)
  | batch :: rest =>
      let '((a, s), w) := val_step config device class_proportions (l_model l) a batch w in
      let l := {| l_model := l_model l; l_optimizer := l_optimizer l;
                  l_batch_num := Some i |} in
      let '((l, a, ss), w) := val_loop config device class_proportions rest (i + 1) l a w in
      ((l, a, s :: ss), w)
  end.

(** Lines 94-102. *)
Definition accum_init : accum :=
  {| loss_accum := 0%float; class_accum := 0%float;
     dist_accum := 0%float; recon_accum := 0%float;
     tp_accum := 0; fp_accum := 0; tn_accum := 0; fn_accum := 0 |}.

(** Lines 134-144: the dict display of the [yield], its values evaluated in
    the order written.  [batch_num] is read first; it is unbound when no
    loop body has run yet. *)
Definition epoch_report (batch_num : option Z) (a : accum) : Py.result (Py.dict float) :=
  match batch_num with
  | None => Py.raise Py.NameError
  | Some batch_num =>
      try! total_loss := Py.float_div_int (loss_accum a) (batch_num + 1) in
      try! class_loss := Py.float_div_int (class_accum a) (batch_num + 1) in
      try! dist_loss := Py.float_div_int (dist_accum a) (batch_num + 1) in
      try! recon_loss := Py.float_div_int (recon_accum a) (batch_num + 1) in
      try! precision := Py.int_truediv (tp_accum a) (tp_accum a + fp_accum a) in
      try! recall := Py.int_truediv (tp_accum a) (tp_accum a + fn_accum a) in
      try! accuracy :=
        Py.int_truediv (tp_accum a + tn_accum a)
                       (tp_accum a + fn_accum a + tn_accum a + fn_accum a) in
      try! specificity := Py.int_truediv (tn_accum a) (tn_accum a + fp_accum a) in
      try! f1_score :=
        Py.int_div_float (tp_accum a) (Py.int_add_float (tp_accum a) 0.5%float) in
      Py.ok [ ("total_loss", total_loss);
              ("class_loss", class_loss);
              ("dist_loss", dist_loss);
              ("recon_loss", recon_loss);
              ("precision", precision);
              ("recall", recall);
              ("accuracy", accuracy);
              ("specificity", specificity);
              ("f1_score", f1_score) ]
  end.

(** One pass of the body of the epoch loop up to the [yield] (lines 69-132):
    the locals afterwards, the accumulators, and the loop bodies run. *)
Definition epoch (config : Config.t) (device : string) (class_proportions : tensor)
    (train_loader val_loader : data_loader) (l : locals) (w : world)
  : (locals * accum * list step * list step) * world :=
  let '(train_batches, w) := iterate train_loader w in
  let '((l, ts), w) := train_loop config device class_proportions train_batches 0 l w in
  let '(val_batches, w) := iterate val_loader w in
  let '((l, a, vs), w) :=
    val_loop config device class_proportions val_batches 0 l accum_init w in
  ((l, a, ts, vs), w).

(** [for epoch_num in range(...)], with [n] epochs left.  An exception in
    the [yield] expression ends the generator. *)
Fixpoint epochs (config : Config.t) (device : string) (class_proportions : tensor)
    (train_loader val_loader : data_loader) (n : nat) (l : locals) (w : world)
  : trial_run * world :=
  match n with
  | O => ({| printed := []; yields := []; train_steps := []; val_steps := [];
             epoch_log := []; raised := None |}, w)
  | S n' =>
      let '((l, a, ts, vs), w) :=
        epoch config device class_proportions train_loader val_loader l w in
      match epoch_report (l_batch_num l) a with
      | inl e =>
          ({| printed := []; yields := []; train_steps := ts; val_steps := vs;
              epoch_log := [(l_batch_num l, a)]; raised := Some e |}, w)
      | inr report =>
          let '(r, w) :=
            epochs config device class_proportions train_loader val_loader n' l w in
          ({| printed := printed r; yields := report :: yields r;
              train_steps := ts ++ train_steps r; val_steps := vs ++ val_steps r;
              epoch_log := (l_batch_num l, a) :: epoch_log r;
              raised := raised r |}, w)
      end
  end.

(** Lines 35-38: the width of the model's input. *)
Definition input_dim (config : Config.t) : Z :=
  if Config.dataset_context (Config.dataset config) then bert_embedding_size * 2
  else bert_embedding_size.

(** Lines 33-144: the function from [get_datasets] on, with the local
    [device] as chosen by lines 27-31.  The library calls before the epoch
    loop are taken to return: [Adam] stands for the call of line 47 as it
    is written, with the keyword [parameters] (the keyword of
    [torch.optim.Adam] is [params], and a call with an unknown keyword
    raises [TypeError]), and [torch_load] for a load that finds its file.
    What the function does when one of them raises is not part of this
    embedding; the statements about the epoch loop itself are made over
    [epochs]. *)
Definition train_on (device : string) (config : Config.t) (checkpoint_dir : option string)
    (w : world) : trial_run * world :=
  let '((train_loader, val_loader, class_proportions), w) := get_datasets config w in
  let input_dim := input_dim config in
  let '(model, w) :=
    VAE (Config.model_latent_dims (Config.model config)) input_dim 7
        (Config.model_softmax (Config.model config)) w in
  let model := vae_to device model in
  let optimizer :=
    Adam model (Config.adam_learning_rate (Config.adam config))
         (fst (Config.adam_betas (Config.adam config)), snd (Config.adam_betas (Config.adam config))) in
  let '(model, optimizer) :=
    match checkpoint_dir with
    | Some checkpoint_dir =>
        if String.eqb checkpoint_dir "" then (model, optimizer)
        else
          let checkpoint := os_path_join checkpoint_dir "checkpoint" in
          let '(model_state, optimizer_state) := torch_load checkpoint w in
          (vae_load_state_dict model model_state,
           optimizer_load_state_dict optimizer optimizer_state)
    | None => (model, optimizer)
    end in
  epochs config device class_proportions train_loader val_loader
         (Py.range_len (Config.training_max_epochs (Config.training config)))
         {| l_model := model; l_optimizer := optimizer; l_batch_num := None |} w.

Definition train_sinkhorn_vae (config : Config.t) (checkpoint_dir : option string)
    (w : world) : trial_run * world :=
  let '(device, out) := select_device config w in
  let '(r, w) := train_on device config checkpoint_dir w in
  ({| printed := out ++ printed r; yields := yields r;
      train_steps := train_steps r; val_steps := val_steps r;
      epoch_log := epoch_log r; raised := raised r |}, w).

End Trial.

(** ** The search: [run_optuna_tune] *)

Module Tune.

(** [ray.tune.suggest]: the search algorithms this file builds. *)
Inductive searcher : Type :=
| OptunaSearch
| ConcurrencyLimiter (searcher_ : searcher) (max_concurrent : nat).

(** [ray.tune.schedulers]: [FIFOScheduler] is what [tune.run] takes when no
    scheduler is passed. *)
Inductive trial_scheduler : Type :=
| FIFOScheduler
| AsyncHyperBandScheduler.

(** The keyword arguments of the call [tune.run(...)] of lines 175-185. *)
Record run_args (T C : Type) : Type := {
  run_or_experiment : T;
  metric : string;
  mode : string;
  search_alg : searcher;
  scheduler : trial_scheduler;
  num_samples : Z;
  config : C;
  local_dir : string;
  fail_fast : bool
}.

Arguments run_or_experiment {T C} _.
Arguments metric {T C} _.
Arguments mode {T C} _.
Arguments search_alg {T C} _.
Arguments scheduler {T C} _.
Arguments num_samples {T C} _.
Arguments config {T C} _.
Arguments local_dir {T C} _.
Arguments fail_fast {T C} _.

(** Modelled from the spec: the trial runner of [ray.tune] and its
    [ConcurrencyLimiter], which are library code and not part of
    [src/]: "run N independent training trials under a search scheduler",
    "under a concurrency cap", with "failure-fast semantics".  The runner
    keeps the trials the search algorithm has suggested and that have not
    completed ([live], the limiter's [live_trials]), those of them that are
    executing ([running]), the number of trials created so far, and whether
    the experiment has been stopped. *)
Record runner : Type := {
  live : gset nat;
  running : gset nat;
  created : nat;
  stopped : bool
}.

Definition init : runner :=
  {| live := ∅; running := ∅; created := 0; stopped := false |}.

(** Modelled from the spec: [searcher.suggest(trial_id)]; [true] when a
    configuration is proposed.  A [ConcurrencyLimiter] proposes nothing
    while [max_concurrent] of its trials are live. *)
Fixpoint suggest (alg : searcher) (live_trials : gset nat) : bool :=
  match alg with
  | OptunaSearch => true
  | ConcurrencyLimiter alg' max_concurrent =>
      if decide (max_concurrent <= size live_trials)%nat then false
      else suggest alg' live_trials
  end.

(** What the runner does in one step. *)
Inductive event : Type :=
| Suggest (trial_id : nat)
| Start (trial_id : nat)
| Complete (trial_id : nat)
| Error (trial_id : nat).

(** Modelled from the spec: one step of the runner's loop under the
    arguments [a].  A trial is created when the search algorithm suggests a
    configuration for it, starts once created, and leaves both sets when it
    completes (by itself or stopped by the scheduler).  When a trial
    raises, the runner with [fail_fast] set stops the experiment: every
    other trial is terminated and none is created or started any more;
    without it only the failed trial leaves. *)
Inductive step {T C : Type} (a : run_args T C) : runner -> event -> runner -> Prop :=
| step_suggest r :
    stopped r = false ->
    (Z.of_nat (created r) < num_samples a)%Z ->
    suggest (search_alg a) (live r) = true ->
    step a r (Suggest (created r))
         {| live := {[created r]} ∪ live r; running := running r;
            created := S (created r); stopped := false |}
| step_start r trial_id :
    stopped r = false ->
    trial_id ∈ live r ->
    trial_id ∉ running r ->
    step a r (Start trial_id)
         {| live := live r; running := {[trial_id]} ∪ running r;
            created := created r; stopped := false |}
| step_complete r trial_id :
    trial_id ∈ running r ->
    step a r (Complete trial_id)
         {| live := live r ∖ {[trial_id]}; running := running r ∖ {[trial_id]};
            created := created r; stopped := stopped r |}
| step_error r trial_id :
    trial_id ∈ running r ->
    step a r (Error trial_id)
         (if fail_fast a then
            {| live := ∅; running := ∅; created := created r; stopped := true |}
          else
            {| live := live r ∖ {[trial_id]}; running := running r ∖ {[trial_id]};
               created := created r; stopped := stopped r |}).

(** The states [tune.run(a)] passes through. *)
Inductive reachable {T C : Type} (a : run_args T C) : runner -> Prop :=
| reachable_init : reachable a init
| reachable_step r e r' : reachable a r -> step a r e r' -> reachable a r'.

End Tune.

Section Search.

Context `{Torch}.

(** [training.search_space.config], the search space handed to [tune.run]:
    a module of the repository outside this file, left as a parameter. *)
Context {search_space : Type} (config : search_space).

(** Lines 171-185: the call of [tune.run] that [run_optuna_tune] makes. *)
Definition run_optuna_tune (smoke_test : bool)
  : Tune.run_args
      (Config.t -> option string -> world -> trial_run * world) search_space :=
  let algorithm := Tune.OptunaSearch in
  let algorithm := Tune.ConcurrencyLimiter algorithm 6 in
  let scheduler := Tune.AsyncHyperBandScheduler in
  {| Tune.run_or_experiment := train_sinkhorn_vae;
     Tune.metric := "total_loss";
     Tune.mode := "min";
     Tune.search_alg := algorithm;
     Tune.scheduler := scheduler;
     Tune.num_samples := if smoke_test then 2 else 20;
     Tune.config := config;
     Tune.local_dir := "results";
     Tune.fail_fast := true |}.

End Search.

(** ** A small instance of the libraries

    Tensors are flat lists of floats, the model is the identity network
    (the decoder and the feature head return the latent code, which is the
    encoder's mean), and the [world] holds the cached dataset, already
    split, and whether a GPU is present.  It serves to run the definitions
    above on concrete inputs. *)

Module Toy.

Definition batch : Type := (list float * list float)%type.

Record machine : Type := {
  cuda : bool;
  train_data : list batch;
  val_data : list batch
}.

Definition zip_add (a b : list float) : list float :=
  List.map (fun p : float * float => PrimFloat.add (fst p) (snd p)) (List.combine a b).

#[export] Instance torch : Torch := {|
  tensor := list float;
  world := machine;
  vae := unit;
  VAE := fun _ _ _ _ w => (tt, w);
  vae_to := fun _ m => m;
  encode := fun _ x => (x, x);
  reparameterize := fun _ mean _ w => (mean, w);
  decoder := fun _ e => e;
  feature_head := fun _ e => e;
  optim := unit;
  Adam := fun _ _ _ => tt;
  zero_grad := fun m _ => m;
  backward := fun _ m => m;
  optimizer_step := fun m o => (m, o);
  state_dict := unit;
  os_path_join := fun a b => a ++ "/" ++ b;
  torch_load := fun _ _ => (tt, tt);
  vae_load_state_dict := fun m _ => m;
  optimizer_load_state_dict := fun o _ => o;
  torch_cuda_is_available := cuda;
  torch_tensor := fun l => l;
  torch_normal := fun _ _ shape w =>
    (List.repeat 0%float (Z.to_nat (List.hd 0 shape)), w);
  tensor_shape := fun t => [Z.of_nat (List.length t)];
  tensor_to := fun _ t => t;
  tensor_float := fun t => t;
  tensor_add := zip_add;
  tensor_mul := fun t x => List.map (fun y => PrimFloat.mul y x) t;
  tensor_rdiv := fun x t => List.map (fun y => PrimFloat.div x y) t;
  tensor_item := fun t => List.hd 0%float t;
  tensor_ge := fun t x => List.map (fun y => PrimFloat.leb x y) t;
  tensor_eq := fun t x => List.map (fun y => PrimFloat.eqb y x) t;
  SamplesLoss := fun _ _ blur _ _ => [blur];
  MSELoss := fun a b => [PrimFloat.sub (List.hd 0%float a) (List.hd 0%float b)];
  BCEWithLogitsLoss := fun pos_weight _ _ => [List.hd 0%float pos_weight];
  dirichlet := list float;
  Dirichlet := fun t => t;
  dirichlet_sample := fun d _ w => (d, w);
  hub_object := unit;
  preprocessing := string;
  side_information := unit;
  iron_march := (list batch * list batch)%type;
  sampler := list batch;
  data_loader := list batch;
  batch_t := batch;
  FileLock_acquire := fun _ w => w;
  FileLock_release := fun _ w => w;
  SideLoader := fun _ => tt;
  torch_hub_load := fun _ _ _ w => (tt, w);
  BertPreprocess := fun _ _ device => device;
  IronMarch := fun _ _ _ _ _ w => ((train_data w, val_data w), w);
  split_validation := fun d _ w => (d, w);
  DataLoader := fun _ _ s => s;
  get_class_proportions := fun _ => [0.5%float];
  iterate := fun l w => (l, w);
  batch_get := fun b k => if String.eqb k "features" then fst b else snd b
|}.

(** A trial configuration asking for the GPU and two epochs. *)
Definition config0 : Config.t :=
  {| Config.device := "cuda:0";
     Config.dataset :=
       {| Config.dataset_context := false;
          Config.dataset_directory := "data";
          Config.dataset_side_information_file_paths := [];
          Config.dataset_batch_size := 5 |};
     Config.model := {| Config.model_latent_dims := 3; Config.model_softmax := true |};
     Config.adam :=
       {| Config.adam_learning_rate := 0.5%float;
          Config.adam_betas := (0.5%float, 0.75%float) |};
     Config.losses :=
       {| Config.distribution_type := "sinkhorn";
          Config.distribution_p := 2;
          Config.distribution_blur := 0.25%float;
          Config.distribution_alpha := 0.5%float;
          Config.distribution_weight := 2%float;
          Config.class_bias := 3%float;
          Config.class_weight := 1%float;
          Config.class_threshold := 0.5%float;
          Config.reconstruction_weight := 4%float |};
     Config.training :=
       {| Config.training_max_epochs := 2; Config.training_batch_size := 5 |};
     Config.latent_space_noise_std := 0.25%float |}.

(** One training batch; one validation batch of five labels whose
    predictions give tp = 1, fp = 2, tn = 1, fn = 1 at threshold 0.5. *)
Definition mixed : machine :=
  {| cuda := false;
     train_data := [([1; 0]%float, [0.75; 0.25]%float)];
     val_data := [([1; 0; 0; 1; 0]%float, [0.75; 0.75; 0.5; 0.25; 0.25]%float)] |}.

(** The same machine with a validation batch on which no prediction
    reaches the threshold. *)
Definition all_negative : machine :=
  {| cuda := false;
     train_data := [([1; 0]%float, [0.75; 0.25]%float)];
     val_data := [([1; 0]%float, [0.25; 0.125]%float)] |}.

(** A machine with a GPU and no data at all. *)
Definition empty_gpu : machine :=
  {| cuda := true; train_data := []; val_data := [] |}.

End Toy.

(** ** The vocabulary of the properties

    The notions the specification uses, stated over the definitions above. *)

Section Vocabulary.

Context `{Torch}.

(** The combination the specification describes: each of the three losses
    times its configured weight, added up. *)
Definition weighted_sum (config : Config.t) (s : step) : tensor :=
  tensor_add
    (tensor_add
       (tensor_mul (class_loss s) (Config.class_weight (Config.losses config)))
       (tensor_mul (distribution_loss s) (Config.distribution_weight (Config.losses config))))
    (tensor_mul (reconstruction_loss s) (Config.reconstruction_weight (Config.losses config))).

(** A draw of [n] samples from the symmetric Dirichlet with concentration
    [alpha] in each of [k] dimensions, in the world [w0]. *)
Definition symmetric_dirichlet_sample (alpha : float) (k n : Z) (w0 : world) : tensor :=
  fst (dirichlet_sample (Dirichlet (torch_tensor (List.repeat alpha (Z.to_nat k)))) [n] w0).

(** The Sinkhorn divergence of a step as the specification describes it. *)
Definition sinkhorn_against_dirichlet (config : Config.t) (device : string) (s : step)
  : Prop :=
  distribution_loss s =
    SamplesLoss (Config.distribution_type (Config.losses config))
                (Config.distribution_p (Config.losses config))
                (Config.distribution_blur (Config.losses config))
                (eps s) (sampled_dirichlet s) /\
  (exists x w0,
      eps s = fst (reparameterize (model s) (fst (encode (model s) x))
                                  (snd (encode (model s) x)) w0)) /\
  (exists w0,
      sampled_dirichlet s =
      tensor_to device
        (symmetric_dirichlet_sample
           (Config.distribution_alpha (Config.losses config))
           (Config.model_latent_dims (Config.model config))
           (Config.training_batch_size (Config.training config)) w0)).

(** The model objects a trial can reach from [m0]: loading a checkpoint,
    clearing and accumulating gradients and optimizer updates change the
    parameters of the model, not the model that was constructed. *)
Inductive trained_from (m0 : vae) : vae -> Prop :=
| trained_refl : trained_from m0 m0
| trained_load m sd : trained_from m0 m -> trained_from m0 (vae_load_state_dict m sd)
| trained_zero_grad m o : trained_from m0 m -> trained_from m0 (zero_grad m o)
| trained_backward m l : trained_from m0 m -> trained_from m0 (backward l m)
| trained_step m o : trained_from m0 m -> trained_from m0 (fst (optimizer_step m o)).

(** The multi-label classification loss of a step as the specification
    describes it: the feature head of a model trained from [m0] scored
    against the batch's feature labels by [BCEWithLogitsLoss] with
    [pos_weight = (1 / class_proportions) * bias]. *)
Definition multi_label_class_loss (config : Config.t) (device : string)
    (class_proportions : tensor) (m0 : vae) (s : step) : Prop :=
  trained_from m0 (model s) /\
  feature_predictions s = feature_head (model s) (eps s) /\
  (exists b, features s = tensor_float (tensor_to device (batch_get b "features"))) /\
  class_loss s =
    BCEWithLogitsLoss
      (tensor_mul (tensor_rdiv 1%float class_proportions)
                  (Config.class_bias (Config.losses config)))
      (feature_predictions s) (features s).

(** The nine keys of the dict of lines 134-144, in order. *)
Definition report_keys : list string :=
  ["total_loss"; "class_loss"; "dist_loss"; "recon_loss"; "precision"; "recall";
   "accuracy"; "specificity"; "f1_score"].

(** The value reported under 'accuracy' for the counts of [a]:
    (tp + tn) / (tp + fn + tn + fn). *)
Definition reported_accuracy (a : accum) : float :=
  PrimFloat.div (Py.float_of_int (tp_accum a + tn_accum a))
                (Py.float_of_int (tp_accum a + fn_accum a + tn_accum a + fn_accum a)).

(** The value reported under 'f1_score' for the counts of [a]:
    tp / (tp + 0.5). *)
Definition reported_f1_score (a : accum) : float :=
  PrimFloat.div (Py.float_of_int (tp_accum a))
                (PrimFloat.add (Py.float_of_int (tp_accum a)) 0.5%float).

(** Accuracy as usually defined: (tp + tn) / (tp + fp + tn + fn). *)
Definition standard_accuracy (a : accum) : float :=
  PrimFloat.div (Py.float_of_int (tp_accum a + tn_accum a))
                (Py.float_of_int (tp_accum a + fp_accum a + tn_accum a + fn_accum a)).

(** F1 as usually defined: tp / (tp + 0.5 * (fp + fn)). *)
Definition standard_f1_score (a : accum) : float :=
  PrimFloat.div (Py.float_of_int (tp_accum a))
                (PrimFloat.add (Py.float_of_int (tp_accum a))
                   (PrimFloat.mul 0.5%float (Py.float_of_int (fp_accum a + fn_accum a)))).

(** The three denominators of precision, recall and specificity. *)
Definition zero_denominator (a : accum) : Prop :=
  (tp_accum a + fp_accum a = 0 \/ tp_accum a + fn_accum a = 0 \/
   tn_accum a + fp_accum a = 0)%Z.


(** The counts a validation step adds to [tp_accum] and [fp_accum]
    (lines 128-130). *)
Definition binary_predictions (config : Config.t) (s : step) : list bool :=
  tensor_ge (feature_predictions s) (Config.class_threshold (Config.losses config)).

Definition true_positives (config : Config.t) (s : step) : Z :=
  BoolTensor.sum (BoolTensor.and (BoolTensor.eq_scalar (binary_predictions config s) 1%float)
                                 (tensor_eq (features s) 1%float)).

Definition false_positives (config : Config.t) (s : step) : Z :=
  BoolTensor.sum (BoolTensor.and (BoolTensor.eq_scalar (binary_predictions config s) 1%float)
                                 (tensor_eq (features s) 0%float)).

Definition sum_over (f : step -> Z) (steps : list step) : Z :=
  List.fold_right (fun s acc => (f s + acc)%Z) 0%Z steps.

(** A validation step in which no prediction reaches the threshold. *)
Definition no_positive_prediction (config : Config.t) (s : step) : Prop :=
  Forall (fun b : bool => b = false) (binary_predictions config s).

(** The tensors of a step live on [device]: the batch's features and posts
    and the Dirichlet sample were moved there. *)
Definition on_device (device : string) (s : step) : Prop :=
  (exists b,
      features s = tensor_float (tensor_to device (batch_get b "features")) /\
      posts s = tensor_float (tensor_to device (batch_get b "posts"))) /\
  (exists t, sampled_dirichlet s = tensor_to device t).

End Vocabulary.

(** The trials that execute are live, and the limiter keeps the live
    trials within its bound. *)
Definition within_limit (max_concurrent : nat) (r : Tune.runner) : Prop :=
  Tune.running r ⊆ Tune.live r /\ (size (Tune.live r) <= max_concurrent)%nat.

(** Opens the body of a loop step: every library call that returns a pair
    is named, and the record of the step is computed. *)
Ltac open_step :=
  unfold train_step, val_step;
  repeat match goal with
         | |- context [let '(_, _) := ?e in _] => destruct e
         end;
  cbn [fst snd].

(** ** Further vocabulary: what a pass over the data computes *)

Section PassVocabulary.

Context `{Torch}.

(** [batch['features'].to(device).float()] and
    [batch['posts'].to(device).float()]. *)
Definition batch_features (device : string) (b : batch_t) : tensor :=
  tensor_float (tensor_to device (batch_get b "features")).

Definition batch_posts (device : string) (b : batch_t) : tensor :=
  tensor_float (tensor_to device (batch_get b "posts")).

(** [0 + x1 + x2 + ...], added in the order of the list. *)
Definition float_sum (xs : list float) : float :=
  List.fold_left PrimFloat.add xs 0%float.

(** The mean over [steps] of the Python float of the loss [f]. *)
Definition mean_over (f : step -> tensor) (steps : list step) : float :=
  PrimFloat.div (float_sum (List.map (fun s => tensor_item (f s)) steps))
                (Py.float_of_int (Z.of_nat (List.length steps))).

(** The counts a validation step adds to [tn_accum] and [fn_accum]
    (lines 131-132). *)
Definition true_negatives (config : Config.t) (s : step) : Z :=
  BoolTensor.sum (BoolTensor.and (BoolTensor.eq_scalar (binary_predictions config s) 0%float)
                                 (tensor_eq (features s) 0%float)).

Definition false_negatives (config : Config.t) (s : step) : Z :=
  BoolTensor.sum (BoolTensor.and (BoolTensor.eq_scalar (binary_predictions config s) 0%float)
                                 (tensor_eq (features s) 1%float)).



Definition predictions (config : Config.t) (s : step) : Z :=
  Z.of_nat (List.length (binary_predictions config s)).

(** The labels of a step are binary and shaped like the predictions: each
    label equals exactly one of 1.0 and 0.0. *)
Definition binary_labels (config : Config.t) (s : step) : Prop :=
  List.length (tensor_eq (features s) 1%float) =
    List.length (binary_predictions config s) /\
  Forall2 (fun is_one is_zero : bool => is_one = negb is_zero)
          (tensor_eq (features s) 1%float) (tensor_eq (features s) 0%float).

(** Device selection falls back to 'cpu' silently: it picks 'cpu' and
    prints nothing. *)
Definition falls_back_silently (config : Config.t) (w : world) : Prop :=
  select_device config w = ("cpu", []).

(** The reconstruction loss of a step compares the batch's own posts with
    the decoder's output on [eps]. *)
Definition reconstructs_clean_posts (device : string) (s : step) : Prop :=
  (exists b, posts s = batch_posts device b) /\
  logits s = decoder (model s) (eps s) /\
  reconstruction_loss s = MSELoss (posts s) (logits s).

(** [eps] is drawn from the encoding of [x]. *)
Definition encodes (s : step) (x : tensor) : Prop :=
  exists w0,
    eps s = fst (reparameterize (model s) (fst (encode (model s) x))
                                (snd (encode (model s) x)) w0).

(** The encoder of a training step sees the posts plus Gaussian noise of
    mean 0 and the configured standard deviation. *)
Definition encodes_noisy_posts (config : Config.t) (device : string) (s : step) : Prop :=
  exists w0,
    encodes s
      (tensor_add (posts s)
         (tensor_to device
            (fst (torch_normal 0%float (Config.latent_space_noise_std config)
                               (tensor_shape (posts s)) w0)))).

End PassVocabulary.

(** Further concrete inputs for the small instance. *)
Module Cases.

(** [Toy.config0] asking for the second GPU. *)
Definition config_cuda1 : Config.t :=
  {| Config.device := "cuda:1";
     Config.dataset := Config.dataset Toy.config0;
     Config.model := Config.model Toy.config0;
     Config.adam := Config.adam Toy.config0;
     Config.losses := Config.losses Toy.config0;
     Config.training := Config.training Toy.config0;
     Config.latent_space_noise_std := Config.latent_space_noise_std Toy.config0 |}.

(** Training data and an empty validation split. *)
Definition no_validation : Toy.machine :=
  {| Toy.cuda := false;
     Toy.train_data := [([1; 0]%float, [0.75; 0.25]%float)];
     Toy.val_data := [] |}.

(** The locals at the start of the epoch loop of the small instance. *)
Definition start : @locals Toy.torch :=
  {| l_model := tt : @vae Toy.torch; l_optimizer := tt : @optim Toy.torch;
     l_batch_num := None |}.

(** The trial ids [0 .. k-1], as the runner numbers them. *)
Fixpoint ids (k : nat) : gset nat :=
  match k with
  | O => ∅
  | S k' => {[k']} ∪ ids k'
  end.

(** The runner after [k] trials were suggested and the first [j] of them
    started. *)
Definition suggested_started (k j : nat) : Tune.runner :=
  {| Tune.live := ids k; Tune.running := ids j; Tune.created := k;
     Tune.stopped := false |}.

(** The report of the first epoch on [Toy.mixed]. *)
Definition mixed_report : Py.dict float :=
  [ ("total_loss", 6.5%float); ("class_loss", 6%float); ("dist_loss", 0.25%float);
    ("recon_loss", 0%float); ("precision", PrimFloat.div 1 3);
    ("recall", 0.5%float); ("accuracy", 0.5%float);
    ("specificity", PrimFloat.div 1 3); ("f1_score", PrimFloat.div 1 1.5) ].

End Cases.

(** * Properties *)

(** ** Invariants of the loops

    [I] is a property of the model object that every training step
    preserves, [P] a property of the values a loop body binds.  Both carry
    over from the bodies to the whole run. *)

Section LoopInvariants.

Context `{Torch}.
Variables (config : Config.t) (device : string) (class_proportions : tensor).
Variables (I : vae -> Prop) (P : step -> Prop).

Hypothesis train_step_inv : forall m o b w,
  I m ->
  I (fst (fst (fst (train_step config device class_proportions m o b w)))) /\
  P (snd (fst (train_step config device class_proportions m o b w))).

Hypothesis val_step_inv : forall m a b w,
  I m -> P (snd (fst (val_step config device class_proportions m a b w))).

Lemma train_loop_inv batches : forall i l w,
  I (l_model l) ->
  I (l_model (fst (fst (train_loop config device class_proportions batches i l w)))) /\
  Forall P (snd (fst (train_loop config device class_proportions batches i l w))).
Proof.
  induction batches as [|b rest IH]; intros i l w Hl; simpl.
  - split; [exact Hl | constructor].
  - destruct (train_step_inv (l_model l) (l_optimizer l) b w Hl) as [Hm Hs].
    destruct (train_step config device class_proportions (l_model l) (l_optimizer l) b w)
      as [[[m o] s] w1]; simpl in Hm, Hs.
    specialize (IH (i + 1)%Z {| l_model := m; l_optimizer := o; l_batch_num := Some i |} w1 Hm).
    destruct (train_loop config device class_proportions rest (i + 1)
                {| l_model := m; l_optimizer := o; l_batch_num := Some i |} w1)
      as [[l' ss] w2]; simpl in *.
    destruct IH as [IH1 IH2]. split; [exact IH1 | constructor; assumption].
Qed.

Lemma val_loop_inv batches : forall i l a w,
  I (l_model l) ->
  l_model (fst (fst (fst (val_loop config device class_proportions batches i l a w))))
    = l_model l /\
  Forall P (snd (fst (val_loop config device class_proportions batches i l a w))).
Proof.
  induction batches as [|b rest IH]; intros i l a w Hl; simpl.
  - split; [reflexivity | constructor].
  - pose proof (val_step_inv (l_model l) a b w Hl) as Hs.
    destruct (val_step config device class_proportions (l_model l) a b w)
      as [[a1 s] w1]; simpl in Hs.
    specialize (IH (i + 1)%Z
                  {| l_model := l_model l; l_optimizer := l_optimizer l;
                     l_batch_num := Some i |} a1 w1 Hl).
    destruct (val_loop config device class_proportions rest (i + 1)
                {| l_model := l_model l; l_optimizer := l_optimizer l;
                   l_batch_num := Some i |} a1 w1)
      as [[[l' a2] ss] w2]; simpl in *.
    destruct IH as [IH1 IH2]. split; [exact IH1 | constructor; assumption].
Qed.

Lemma epoch_inv train_loader val_loader l w :
  I (l_model l) ->
  let r := fst (epoch config device class_proportions train_loader val_loader l w) in
  I (l_model (fst (fst (fst r)))) /\ Forall P (snd (fst r)) /\ Forall P (snd r).
Proof.
  intros Hl. unfold epoch.
  destruct (iterate train_loader w) as [tb w1].
  destruct (train_loop_inv tb 0%Z l w1 Hl) as [Hm Ht].
  destruct (train_loop config device class_proportions tb 0 l w1) as [[l1 ts] w2];
    simpl in Hm, Ht.
  destruct (iterate val_loader w2) as [vb w3].
  destruct (val_loop_inv vb 0%Z l1 accum_init w3 Hm) as [He Hv].
  destruct (val_loop config device class_proportions vb 0 l1 accum_init w3)
    as [[[l2 a] vs] w4]; simpl in *.
  rewrite He. auto.
Qed.

Lemma epochs_inv train_loader val_loader n : forall l w,
  I (l_model l) ->
  let r := fst (epochs config device class_proportions train_loader val_loader n l w) in
  Forall P (train_steps r) /\ Forall P (val_steps r).
Proof.
  induction n as [|n IH]; intros l w Hl; simpl.
  - split; constructor.
  - pose proof (epoch_inv train_loader val_loader l w Hl) as He.
    destruct (epoch config device class_proportions train_loader val_loader l w)
      as [[[[l1 a] ts] vs] w1]; simpl in He.
    destruct He as (Hm & Ht & Hv).
    destruct (epoch_report (l_batch_num l1) a) as [e|report]; simpl.
    + split; assumption.
    + specialize (IH l1 w1 Hm).
      destruct (epochs config device class_proportions train_loader val_loader n l1 w1)
        as [r w2]; simpl in *.
      destruct IH as [IH1 IH2].
      split; apply Forall_app; split; assumption.
Qed.

End LoopInvariants.

Section RunInvariants.

Context `{Torch}.

Lemma train_on_inv (I : vae -> Prop) (P : step -> Prop)
    (device : string) (config : Config.t) (checkpoint_dir : option string) (w : world) :
  (forall m o b w',
      I m ->
      I (fst (fst (fst (train_step config device
                          (snd (fst (get_datasets config w))) m o b w')))) /\
      P (snd (fst (train_step config device
                     (snd (fst (get_datasets config w))) m o b w')))) ->
  (forall m a b w',
      I m ->
      P (snd (fst (val_step config device
                     (snd (fst (get_datasets config w))) m a b w')))) ->
  (forall m sd, I m -> I (vae_load_state_dict m sd)) ->
  I (vae_to device
       (fst (VAE (Config.model_latent_dims (Config.model config)) (input_dim config) 7
                 (Config.model_softmax (Config.model config))
                 (snd (get_datasets config w))))) ->
  Forall P (train_steps (fst (train_on device config checkpoint_dir w))) /\
  Forall P (val_steps (fst (train_on device config checkpoint_dir w))).
Proof.
  intros Ht Hv Hload Hinit. unfold train_on.
  destruct (get_datasets config w) as [[[tl vl] cp] w1]; simpl in Ht, Hv, Hinit.
  cbv zeta.
  destruct (VAE (Config.model_latent_dims (Config.model config)) (input_dim config) 7
                (Config.model_softmax (Config.model config)) w1) as [m w2];
    simpl in Hinit.
  destruct checkpoint_dir as [d|].
  - destruct (String.eqb d "").
    + apply (epochs_inv config device cp I P Ht Hv); exact Hinit.
    + destruct (torch_load (os_path_join d "checkpoint") w2) as [ms os].
      apply (epochs_inv config device cp I P Ht Hv). simpl. apply Hload, Hinit.
  - apply (epochs_inv config device cp I P Ht Hv); exact Hinit.
Qed.

Lemma train_sinkhorn_vae_steps (run : trial_run) (config : Config.t)
    (checkpoint_dir : option string) (w : world) :
  run = fst (train_sinkhorn_vae config checkpoint_dir w) ->
  train_steps run =
    train_steps (fst (train_on (fst (select_device config w)) config checkpoint_dir w)) /\
  val_steps run =
    val_steps (fst (train_on (fst (select_device config w)) config checkpoint_dir w)) /\
  yields run =
    yields (fst (train_on (fst (select_device config w)) config checkpoint_dir w)) /\
  raised run =
    raised (fst (train_on (fst (select_device config w)) config checkpoint_dir w)) /\
  epoch_log run =
    epoch_log (fst (train_on (fst (select_device config w)) config checkpoint_dir w)).
Proof.
  intros ->. unfold train_sinkhorn_vae.
  destruct (select_device config w) as [dev out]; simpl.
  destruct (train_on dev config checkpoint_dir w) as [r w']; simpl. auto.
Qed.

(** A property every loop body establishes holds of every step of a trial. *)
Lemma trial_steps (P : string -> tensor -> step -> Prop)
    (config : Config.t) (checkpoint_dir : option string) (w : world) :
  (forall device cp m o b w',
      P device cp (snd (fst (train_step config device cp m o b w')))) ->
  (forall device cp m a b w',
      P device cp (snd (fst (val_step config device cp m a b w')))) ->
  let run := fst (train_sinkhorn_vae config checkpoint_dir w) in
  let device := fst (select_device config w) in
  let cp := snd (fst (get_datasets config w)) in
  Forall (P device cp) (train_steps run) /\ Forall (P device cp) (val_steps run).
Proof.
  intros Ht Hv run device cp.
  destruct (train_sinkhorn_vae_steps run config checkpoint_dir w eq_refl)
    as (-> & -> & _).
  apply (train_on_inv (fun _ => True) (P device cp)); auto.
Qed.

End RunInvariants.


(** ** The losses of a step *)

Section Losses.

Context `{Torch}.

(** C3.  In every training step and every validation step of a trial, the
    total loss is the class loss times its weight, plus the distribution
    loss times its weight, plus the reconstruction loss times its weight,
    the weights being those of [config['losses']]. *)
Theorem loss_is_weighted_sum (config : Config.t) (checkpoint_dir : option string)
    (w : world) :
  let run := fst (train_sinkhorn_vae config checkpoint_dir w) in
  Forall (fun s => loss s = weighted_sum config s) (train_steps run) /\
  Forall (fun s => loss s = weighted_sum config s) (val_steps run).
Proof.
  apply (trial_steps (fun _ _ s => loss s = weighted_sum config s));
    intros; open_step; reflexivity.
Qed.

Lemma map_const_seq {A : Type} (c : A) (n : nat) : forall start,
  List.map (fun _ : nat => c) (List.seq start n) = List.repeat c n.
Proof.
  induction n as [|n IH]; intros start; simpl; [reflexivity|].
  f_equal. apply IH.
Qed.

(** The concentration vector holds [alpha] once per latent dimension. *)
Lemma dirichlet_concentration_repeat (config : Config.t) :
  dirichlet_concentration config =
  List.repeat (Config.distribution_alpha (Config.losses config))
              (Z.to_nat (Config.model_latent_dims (Config.model config))).
Proof. unfold dirichlet_concentration, Py.range_len. apply map_const_seq. Qed.

Lemma train_step_sinkhorn config device cp m o b w :
  sinkhorn_against_dirichlet config device
    (snd (fst (train_step config device cp m o b w))).
Proof.
  unfold sinkhorn_against_dirichlet, symmetric_dirichlet_sample.
  rewrite <- dirichlet_concentration_repeat.
  unfold train_step.
  destruct (torch_normal _ _ _ w) as [noise w1].
  set (x := tensor_add _ (tensor_to device noise)).
  destruct (encode (zero_grad m o) x) as [mean logvar] eqn:Henc.
  destruct (reparameterize (zero_grad m o) mean logvar w1) as [e w2] eqn:Hrep.
  destruct (dirichlet_sample (dirichlet_distribution config) _ w2) as [d w3] eqn:Hd.
  destruct (optimizer_step _ o) as [m' o'].
  cbn [fst snd eps sampled_dirichlet distribution_loss model].
  split; [reflexivity|]. split.
  - exists x, w1. rewrite Henc. cbn [fst snd]. rewrite Hrep. reflexivity.
  - exists w2. unfold dirichlet_distribution in Hd. rewrite Hd. reflexivity.
Qed.

Lemma val_step_sinkhorn config device cp m a b w :
  sinkhorn_against_dirichlet config device
    (snd (fst (val_step config device cp m a b w))).
Proof.
  unfold sinkhorn_against_dirichlet, symmetric_dirichlet_sample.
  rewrite <- dirichlet_concentration_repeat.
  unfold val_step.
  set (x := tensor_float (tensor_to device (batch_get b "posts"))).
  destruct (encode m x) as [mean logvar] eqn:Henc.
  destruct (reparameterize m mean logvar w) as [e w2] eqn:Hrep.
  destruct (dirichlet_sample (dirichlet_distribution config) _ w2) as [d w3] eqn:Hd.
  cbn [fst snd eps sampled_dirichlet distribution_loss model].
  split; [reflexivity|]. split.
  - exists x, w. rewrite Henc. cbn [fst snd]. rewrite Hrep. reflexivity.
  - exists w2. unfold dirichlet_distribution in Hd. rewrite Hd. reflexivity.
Qed.

(** C4.  In every step of a trial the distribution loss is the
    [geomloss.SamplesLoss] built from [type], [p] and [blur] of
    [config['losses']['distribution']], applied to the reparameterized
    latent codes [eps] and to [config['training']['batch_size']] samples of
    the symmetric Dirichlet distribution whose concentration is [alpha] in
    each of the [config['model']['latent_dims']] dimensions. *)
Theorem distribution_loss_is_sinkhorn_against_dirichlet (config : Config.t)
    (checkpoint_dir : option string) (w : world) :
  let run := fst (train_sinkhorn_vae config checkpoint_dir w) in
  let device := fst (select_device config w) in
  Forall (sinkhorn_against_dirichlet config device) (train_steps run) /\
  Forall (sinkhorn_against_dirichlet config device) (val_steps run).
Proof.
  apply (trial_steps (fun device _ s => sinkhorn_against_dirichlet config device s));
    intros.
  - apply train_step_sinkhorn.
  - apply val_step_sinkhorn.
Qed.

End Losses.

(** ** The classification loss *)

Section ClassLoss.

Context `{Torch}.


Lemma train_step_class_loss config device cp m0 m o b w :
  trained_from m0 m ->
  trained_from m0 (fst (fst (fst (train_step config device cp m o b w)))) /\
  multi_label_class_loss config device cp m0
    (snd (fst (train_step config device cp m o b w))).
Proof.
  intros Hm. unfold multi_label_class_loss, train_step.
  destruct (torch_normal _ _ _ w) as [noise w1].
  destruct (encode (zero_grad m o) _) as [mean logvar].
  destruct (reparameterize (zero_grad m o) mean logvar w1) as [e w2].
  destruct (dirichlet_sample _ _ w2) as [d w3].
  match goal with
  | |- context [optimizer_step ?m' o] =>
      assert (Hs : trained_from m0 (fst (optimizer_step m' o)))
        by (apply trained_step, trained_backward, trained_zero_grad, Hm);
      destruct (optimizer_step m' o) as [m2 o2]
  end.
  cbn [fst snd model feature_predictions features class_loss eps] in *.
  split; [exact Hs|].
  split; [apply trained_zero_grad, Hm|].
  split; [reflexivity|].
  split; [exists b; reflexivity | reflexivity].
Qed.

Lemma val_step_class_loss config device cp m0 m a b w :
  trained_from m0 m ->
  multi_label_class_loss config device cp m0
    (snd (fst (val_step config device cp m a b w))).
Proof.
  intros Hm. unfold multi_label_class_loss, val_step.
  destruct (encode m _) as [mean logvar].
  destruct (reparameterize m mean logvar w) as [e w2].
  destruct (dirichlet_sample _ _ w2) as [d w3].
  cbn [fst snd model feature_predictions features class_loss eps].
  split; [exact Hm|].
  split; [reflexivity|].
  split; [exists b; reflexivity | reflexivity].
Qed.


End ClassLoss.

(** ** The report of an epoch *)

Section Reports.

Context `{Torch}.

Lemma int_truediv_ok a b x :
  Py.int_truediv a b = inr x ->
  b <> 0%Z /\ x = PrimFloat.div (Py.float_of_int a) (Py.float_of_int b).
Proof.
  unfold Py.int_truediv. destruct (Z.eqb_spec b 0); [discriminate|].
  intros [= <-]. auto.
Qed.

Lemma int_truediv_zero a b : b = 0%Z -> Py.int_truediv a b = inl Py.ZeroDivisionError.
Proof. intros ->. reflexivity. Qed.

Lemma float_div_int_raises x b e :
  Py.float_div_int x b = inl e -> e = Py.ZeroDivisionError.
Proof.
  unfold Py.float_div_int. destruct (b =? 0)%Z; [|discriminate].
  intros [= <-]. reflexivity.
Qed.

Lemma int_truediv_raises a b e :
  Py.int_truediv a b = inl e -> e = Py.ZeroDivisionError.
Proof.
  unfold Py.int_truediv. destruct (b =? 0)%Z; [|discriminate].
  intros [= <-]. reflexivity.
Qed.

Lemma int_div_float_raises a y e :
  Py.int_div_float a y = inl e -> e = Py.ZeroDivisionError.
Proof.
  unfold Py.int_div_float. destruct (PrimFloat.eqb y 0); [|discriminate].
  intros [= <-]. reflexivity.
Qed.

(** What a report that is produced says: [batch_num] was bound, no
    denominator was zero, and each metric is the quotient written in the
    [yield]. *)
Lemma epoch_report_ok batch_num a report :
  epoch_report batch_num a = inr report ->
  (exists n, batch_num = Some n) /\
  (tp_accum a + fp_accum a <> 0)%Z /\
  (tp_accum a + fn_accum a <> 0)%Z /\
  (tn_accum a + fp_accum a <> 0)%Z /\
  Py.keys report = report_keys /\
  Py.get report "accuracy" = Some (reported_accuracy a) /\
  Py.get report "f1_score" = Some (reported_f1_score a).
Proof.
  unfold epoch_report. destruct batch_num as [n|]; [|discriminate].
  destruct (Py.float_div_int (loss_accum a) (n + 1)) as [|x1]; [discriminate|].
  destruct (Py.float_div_int (class_accum a) (n + 1)) as [|x2]; [discriminate|].
  destruct (Py.float_div_int (dist_accum a) (n + 1)) as [|x3]; [discriminate|].
  destruct (Py.float_div_int (recon_accum a) (n + 1)) as [|x4]; [discriminate|].
  cbn [Py.bind].
  destruct (Py.int_truediv (tp_accum a) (tp_accum a + fp_accum a))
    as [|p] eqn:Hp; [discriminate|].
  destruct (Py.int_truediv (tp_accum a) (tp_accum a + fn_accum a))
    as [|r] eqn:Hr; [discriminate|].
  destruct (Py.int_truediv (tp_accum a + tn_accum a) _) as [|c] eqn:Hc; [discriminate|].
  destruct (Py.int_truediv (tn_accum a) (tn_accum a + fp_accum a))
    as [|s] eqn:Hs; [discriminate|].
  cbn [Py.bind].
  unfold Py.int_div_float, Py.int_add_float.
  destruct (PrimFloat.eqb _ 0); [discriminate|].
  cbn [Py.bind Py.ok]. intros [= <-].
  apply int_truediv_ok in Hp, Hr, Hc, Hs.
  destruct Hp as [Hp _], Hr as [Hr _], Hc as [_ Hc], Hs as [Hs _].
  split; [eexists; reflexivity|].
  repeat (split; [assumption|]).
  split; [reflexivity|].
  split; [cbn; rewrite Hc; reflexivity | reflexivity].
Qed.

(** With [batch_num] bound, a zero denominator makes the [yield]
    expression raise [ZeroDivisionError]. *)
Lemma epoch_report_zero_division n a :
  zero_denominator a -> epoch_report (Some n) a = inl Py.ZeroDivisionError.
Proof.
  intros Hz.
  destruct (epoch_report (Some n) a) as [e|report] eqn:Hrep.
  - f_equal. revert Hrep. unfold epoch_report.
    repeat match goal with
           | |- Py.bind ?r _ = inl e -> _ =>
               let He := fresh "He" in
               destruct r as [e'|?] eqn:He; cbn [Py.bind];
               [ intros [= <-];
                 first [ eapply float_div_int_raises; exact He
                       | eapply int_truediv_raises; exact He
                       | eapply int_div_float_raises; exact He ]
               | ]
           end.
    discriminate.
  - apply epoch_report_ok in Hrep.
    destruct Hrep as (_ & H1 & H2 & H3 & _).
    destruct Hz as [Hz|[Hz|Hz]]; contradiction.
Qed.

End Reports.

(** ** The epoch loop *)

Section EpochLoop.

Context `{Torch}.

Lemma train_on_epochs device config checkpoint_dir w :
  exists cp tl vl l w',
    train_on device config checkpoint_dir w =
    epochs config device cp tl vl
           (Py.range_len (Config.training_max_epochs (Config.training config))) l w'.
Proof.
  unfold train_on.
  destruct (get_datasets config w) as [[[tl vl] cp] w1]. cbv zeta.
  destruct (VAE _ _ _ _ w1) as [m w2].
  destruct checkpoint_dir as [d|]; [destruct (String.eqb d "");
    [|destruct (torch_load (os_path_join d "checkpoint") w2) as [ms os]]|];
    repeat eexists.
Qed.

Lemma epochs_yields (Q : Py.dict float -> Prop) config device cp tl vl n :
  (forall batch_num a report, epoch_report batch_num a = inr report -> Q report) ->
  forall l w, Forall Q (yields (fst (epochs config device cp tl vl n l w))).
Proof.
  intros HQ. induction n as [|n IH]; intros l w; simpl; [constructor|].
  destruct (epoch config device cp tl vl l w) as [[[[l1 a] ts] vs] w1].
  destruct (epoch_report (l_batch_num l1) a) as [e|report] eqn:Hrep; simpl.
  - constructor.
  - specialize (IH l1 w1).
    destruct (epochs config device cp tl vl n l1 w1) as [r w2]; simpl in *.
    constructor; [eapply HQ; exact Hrep | exact IH].
Qed.


(** Each report is the [yield] expression of its epoch, evaluated on the
    accumulators of that epoch. *)
Lemma epochs_reports config device cp tl vl n : forall l w,
  let r := fst (epochs config device cp tl vl n l w) in
  Forall2 (fun p report => epoch_report (fst p) (snd p) = inr report)
          (List.firstn (List.length (yields r)) (epoch_log r)) (yields r).
Proof.
  induction n as [|n IH]; intros l w; simpl; [constructor|].
  destruct (epoch config device cp tl vl l w) as [[[[l1 a] ts] vs] w1].
  destruct (epoch_report (l_batch_num l1) a) as [e|report] eqn:Hrep; simpl.
  - constructor.
  - specialize (IH l1 w1).
    destruct (epochs config device cp tl vl n l1 w1) as [r w2]; simpl in *.
    constructor; [exact Hrep | exact IH].
Qed.

(** The epochs run are those that reported, and the one that raised. *)
Lemma epochs_log_length config device cp tl vl n : forall l w,
  let r := fst (epochs config device cp tl vl n l w) in
  List.length (epoch_log r) =
    (List.length (yields r) + match raised r with Some _ => 1 | None => 0 end)%nat.
Proof.
  induction n as [|n IH]; intros l w; simpl; [reflexivity|].
  destruct (epoch config device cp tl vl l w) as [[[[l1 a] ts] vs] w1].
  destruct (epoch_report (l_batch_num l1) a) as [e|report]; simpl; [reflexivity|].
  specialize (IH l1 w1).
  destruct (epochs config device cp tl vl n l1 w1) as [r w2]; simpl in *.
  rewrite IH. reflexivity.
Qed.

Lemma trial_reports config checkpoint_dir w :
  let r := fst (train_sinkhorn_vae config checkpoint_dir w) in
  Forall2 (fun p report => epoch_report (fst p) (snd p) = inr report)
          (List.firstn (List.length (yields r)) (epoch_log r)) (yields r) /\
  List.length (epoch_log r) =
    (List.length (yields r) + match raised r with Some _ => 1 | None => 0 end)%nat.
Proof.
  intros r.
  destruct (train_sinkhorn_vae_steps r config checkpoint_dir w eq_refl)
    as (_ & _ & -> & -> & ->).
  destruct (train_on_epochs (fst (select_device config w)) config checkpoint_dir w)
    as (cp & tl & vl & l & w' & ->).
  split; [apply epochs_reports | apply epochs_log_length].
Qed.

Lemma trial_yields (Q : Py.dict float -> Prop) config checkpoint_dir w :
  (forall batch_num a report, epoch_report batch_num a = inr report -> Q report) ->
  Forall Q (yields (fst (train_sinkhorn_vae config checkpoint_dir w))).
Proof.
  intros HQ.
  destruct (train_sinkhorn_vae_steps _ config checkpoint_dir w eq_refl)
    as (_ & _ & -> & _).
  destruct (train_on_epochs (fst (select_device config w)) config checkpoint_dir w)
    as (cp & tl & vl & l & w' & ->).
  apply epochs_yields, HQ.
Qed.


End EpochLoop.


(** ** The metrics *)

Section Metrics.

Context `{Torch}.

Lemma sum_and_no_positive (bp other : list bool) :
  Forall (fun b : bool => b = false) bp ->
  BoolTensor.sum (BoolTensor.and (BoolTensor.eq_scalar bp 1%float) other) = 0%Z.
Proof.
  intros Hbp. revert other.
  induction Hbp as [|b bp Hb _ IH]; intros other; [reflexivity|].
  destruct other as [|o other]; [reflexivity|].
  subst b. unfold BoolTensor.sum, BoolTensor.and, BoolTensor.eq_scalar in *.
  cbn [List.map List.combine fst snd].
  replace (PrimFloat.eqb 0 1) with false by reflexivity.
  cbn [andb List.filter]. apply IH.
Qed.

(** The counters after the validation loop are the counters before it plus
    the counts of every step. *)
Lemma val_loop_counts config device cp batches : forall i l a w,
  let r := fst (val_loop config device cp batches i l a w) in
  tp_accum (snd (fst r)) = (tp_accum a + sum_over (true_positives config) (snd r))%Z /\
  fp_accum (snd (fst r)) = (fp_accum a + sum_over (false_positives config) (snd r))%Z.
Proof.
  induction batches as [|b rest IH]; intros i l a w; simpl; [lia|].
  assert (Hstep :
    let r1 := fst (val_step config device cp (l_model l) a b w) in
    tp_accum (fst r1) = (tp_accum a + true_positives config (snd r1))%Z /\
    fp_accum (fst r1) = (fp_accum a + false_positives config (snd r1))%Z).
  { unfold true_positives, false_positives, binary_predictions. open_step.
    split; reflexivity. }
  destruct (val_step config device cp (l_model l) a b w) as [[a1 s] w1];
    cbn [fst snd] in Hstep.
  specialize (IH (i + 1)%Z
                {| l_model := l_model l; l_optimizer := l_optimizer l;
                   l_batch_num := Some i |} a1 w1).
  destruct (val_loop config device cp rest (i + 1) _ a1 w1) as [[[l' a2] ss] w2];
    unfold sum_over in *; cbn [fst snd List.fold_right] in *.
  lia.
Qed.

Lemma sum_over_no_positive config steps :
  Forall (no_positive_prediction config) steps ->
  sum_over (true_positives config) steps = 0%Z /\
  sum_over (false_positives config) steps = 0%Z.
Proof.
  induction 1 as [|s steps Hs _ [IH1 IH2]]; [split; reflexivity|].
  unfold sum_over in *. cbn [List.fold_right]. rewrite IH1, IH2.
  unfold true_positives, false_positives.
  rewrite !(sum_and_no_positive _ _ Hs). split; reflexivity.
Qed.

(** An epoch without a positive prediction in its validation pass ends
    with [tp_accum + fp_accum = 0]. *)
Lemma epoch_no_positive config device cp tl vl l w :
  let ep := fst (epoch config device cp tl vl l w) in
  Forall (no_positive_prediction config) (snd ep) ->
  (tp_accum (snd (fst (fst ep))) + fp_accum (snd (fst (fst ep))) = 0)%Z.
Proof.
  unfold epoch.
  destruct (iterate tl w) as [tb w1].
  destruct (train_loop config device cp tb 0 l w1) as [[l1 ts] w2].
  destruct (iterate vl w2) as [vb w3].
  pose proof (val_loop_counts config device cp vb 0%Z l1 accum_init w3) as Hc.
  destruct (val_loop config device cp vb 0 l1 accum_init w3) as [[[l2 a] vs] w4].
  cbn [fst snd] in *. intros Hno.
  destruct (sum_over_no_positive config vs Hno) as [Ht Hf].
  destruct Hc as [-> ->]. rewrite Ht, Hf. reflexivity.
Qed.

(** When the report of an epoch raises, the generator yields nothing from
    that epoch on and ends with the exception. *)
Lemma epochs_raise config device cp tl vl n l w e :
  let ep := fst (epoch config device cp tl vl l w) in
  epoch_report (l_batch_num (fst (fst (fst ep)))) (snd (fst (fst ep))) = inl e ->
  yields (fst (epochs config device cp tl vl (S n) l w)) = [] /\
  raised (fst (epochs config device cp tl vl (S n) l w)) = Some e.
Proof.
  cbn [epochs].
  destruct (epoch config device cp tl vl l w) as [[[[l1 a] ts] vs] w1].
  cbn [fst snd]. intros ->. split; reflexivity.
Qed.

(** C8.  In every report of a trial the value under 'accuracy' is
    (tp + tn) / (tp + fn + tn + fn) and the value under 'f1_score' is
    tp / (tp + 0.5), for the counters of the epoch that yields it.  The first does not
    depend on the false positives and the second depends on the true
    positives alone; on the counts tp = 1, fp = 2, tn = 1, fn = 1 both
    differ from accuracy and F1 as usually defined. *)
Theorem accuracy_and_f1_are_nonstandard (config : Config.t)
    (checkpoint_dir : option string) (w : world) :
  let run := fst (train_sinkhorn_vae config checkpoint_dir w) in
  Forall2 (fun p report =>
             epoch_report (fst p) (snd p) = inr report /\
             Py.get report "accuracy" = Some (reported_accuracy (snd p)) /\
             Py.get report "f1_score" = Some (reported_f1_score (snd p)))
          (List.firstn (List.length (yields run)) (epoch_log run)) (yields run) /\
  (forall bn a r bn' a' r',
      epoch_report bn a = inr r -> epoch_report bn' a' = inr r' ->
      (tp_accum a = tp_accum a' ->
       Py.get r "f1_score" = Py.get r' "f1_score") /\
      (tp_accum a = tp_accum a' -> tn_accum a = tn_accum a' ->
       fn_accum a = fn_accum a' ->
       Py.get r "accuracy" = Py.get r' "accuracy")) /\
  (let a := {| loss_accum := 0; class_accum := 0; dist_accum := 0; recon_accum := 0;
               tp_accum := 1; fp_accum := 2; tn_accum := 1; fn_accum := 1 |} in
   PrimFloat.eqb (reported_accuracy a) (standard_accuracy a) = false /\
   PrimFloat.eqb (reported_f1_score a) (standard_f1_score a) = false).
Proof.
  intros run. split; [|split].
  - eapply Forall2_impl; [apply trial_reports|].
    intros [bn a] report Hrep. split; [exact Hrep|].
    apply epoch_report_ok in Hrep. tauto.
  - intros bn a r bn' a' r' Hr Hr'.
    apply epoch_report_ok in Hr, Hr'.
    destruct Hr as (_ & _ & _ & _ & _ & Hacc & Hf1).
    destruct Hr' as (_ & _ & _ & _ & _ & Hacc' & Hf1').
    rewrite Hacc, Hacc', Hf1, Hf1'.
    unfold reported_accuracy, reported_f1_score.
    split; [intros -> | intros -> -> ->]; reflexivity.
  - split; vm_compute; reflexivity.
Qed.

(** C9.  The divisions of the report are unguarded.  A report is produced
    only when the denominators of precision, recall and specificity are all
    nonzero; when one of them is zero the [yield] expression raises
    [ZeroDivisionError] (with [batch_num] bound), the generator yields
    nothing for that epoch and ends with the exception.  An epoch whose
    validation pass has no positive prediction is such an epoch:
    tp + fp = 0. *)
Theorem metric_divisions_are_unguarded (config : Config.t) (device : string)
    (cp : tensor) (tl vl : data_loader) (n : nat) (l : locals) (w : world) :
  let ep := fst (epoch config device cp tl vl l w) in
  let batch_num := l_batch_num (fst (fst (fst ep))) in
  let a := snd (fst (fst ep)) in
  let run := fst (epochs config device cp tl vl (S n) l w) in
  (forall report, epoch_report batch_num a = inr report -> ~ zero_denominator a) /\
  (zero_denominator a ->
   (exists e, epoch_report batch_num a = inl e /\
              yields run = [] /\ raised run = Some e) /\
   (forall i, batch_num = Some i -> raised run = Some Py.ZeroDivisionError)) /\
  (Forall (no_positive_prediction config) (snd ep) ->
   (tp_accum a + fp_accum a = 0)%Z /\ zero_denominator a).
Proof.
  intros ep batch_num a run. split; [|split].
  - intros report Hrep Hz. apply epoch_report_ok in Hrep.
    destruct Hrep as (_ & H1 & H2 & H3 & _).
    destruct Hz as [Hz|[Hz|Hz]]; contradiction.
  - intros Hz.
    assert (He : exists e, epoch_report batch_num a = inl e).
    { destruct batch_num as [i|]; [|exists Py.NameError; reflexivity].
      exists Py.ZeroDivisionError. apply epoch_report_zero_division, Hz. }
    destruct He as [e He]. split.
    + exists e. split; [exact He|]. apply epochs_raise. exact He.
    + intros i Hi. apply epochs_raise. fold ep. fold batch_num. fold a.
      rewrite Hi. apply epoch_report_zero_division, Hz.
  - intros Hno. pose proof (epoch_no_positive config device cp tl vl l w Hno) as Hz.
    fold ep in Hz. fold a in Hz. split; [exact Hz | left; exact Hz].
Qed.

End Metrics.

(** ** Device selection *)

Section DeviceFallback.

Context `{Torch}.

Lemma train_step_on_device config device cp m o b w :
  on_device device (snd (fst (train_step config device cp m o b w))).
Proof.
  unfold on_device. open_step.
  split; [exists b; split; reflexivity | eexists; reflexivity].
Qed.

Lemma val_step_on_device config device cp m a b w :
  on_device device (snd (fst (val_step config device cp m a b w))).
Proof.
  unfold on_device. open_step.
  split; [exists b; split; reflexivity | eexists; reflexivity].
Qed.

Lemma epochs_print_nothing config device cp tl vl n : forall l w,
  printed (fst (epochs config device cp tl vl n l w)) = [].
Proof.
  induction n as [|n IH]; intros l w; simpl; [reflexivity|].
  destruct (epoch config device cp tl vl l w) as [[[[l1 a] ts] vs] w1].
  destruct (epoch_report (l_batch_num l1) a) as [e|report]; simpl; [reflexivity|].
  specialize (IH l1 w1).
  destruct (epochs config device cp tl vl n l1 w1) as [r w2]. exact IH.
Qed.

(** C10, as amended.  When [config['device']] is 'cuda:0' and CUDA is not
    available, device selection raises nothing: it prints the line 'Could
    not find GPU, reverting to CPU training!' and continues with the
    device 'cpu'.  The trial is then the run of the rest of the function
    with [device = 'cpu']: the model is the [VAE] moved to 'cpu', and every
    batch and every Dirichlet sample is moved to 'cpu'. *)
Theorem cuda_unavailable_falls_back_to_cpu (config : Config.t)
    (checkpoint_dir : option string) (w : world) :
  Config.device config = "cuda:0" ->
  torch_cuda_is_available w = false ->
  let run := fst (train_sinkhorn_vae config checkpoint_dir w) in
  let cpu_run := fst (train_on "cpu" config checkpoint_dir w) in
  let m0 :=
    vae_to "cpu"
      (fst (VAE (Config.model_latent_dims (Config.model config)) (input_dim config) 7
                (Config.model_softmax (Config.model config))
                (snd (get_datasets config w)))) in
  select_device config w = ("cpu", ["Could not find GPU, reverting to CPU training!"]) /\
  printed run = ["Could not find GPU, reverting to CPU training!"] /\
  (yields run = yields cpu_run /\ raised run = raised cpu_run /\
   train_steps run = train_steps cpu_run /\ val_steps run = val_steps cpu_run) /\
  Forall (fun s => on_device "cpu" s /\ trained_from m0 (model s)) (train_steps run) /\
  Forall (fun s => on_device "cpu" s /\ trained_from m0 (model s)) (val_steps run).
Proof.
  intros Hdev Hcuda run cpu_run m0.
  assert (Hsel : select_device config w =
                 ("cpu", ["Could not find GPU, reverting to CPU training!"])).
  { unfold select_device. rewrite Hdev, Hcuda. reflexivity. }
  split; [exact Hsel|].
  assert (Hrun : run =
    {| printed := ["Could not find GPU, reverting to CPU training!"] ++ printed cpu_run;
       yields := yields cpu_run; train_steps := train_steps cpu_run;
       val_steps := val_steps cpu_run; epoch_log := epoch_log cpu_run;
       raised := raised cpu_run |}).
  { unfold run, cpu_run, train_sinkhorn_vae. rewrite Hsel.
    destruct (train_on "cpu" config checkpoint_dir w) as [r w']. reflexivity. }
  assert (Hprinted : printed cpu_run = []).
  { unfold cpu_run.
    destruct (train_on_epochs "cpu" config checkpoint_dir w)
      as (cp & tl & vl & l & w' & ->).
    apply epochs_print_nothing. }
  rewrite Hrun; cbn [printed yields raised train_steps val_steps].
  rewrite Hprinted.
  split; [reflexivity|]. split; [auto|].
  apply (train_on_inv (trained_from m0)
           (fun s => on_device "cpu" s /\ trained_from m0 (model s))).
  - intros m o b w' Hm.
    split; [apply train_step_class_loss; exact Hm|].
    split; [apply train_step_on_device|].
    apply (train_step_class_loss config "cpu" _ m0 m o b w' Hm).
  - intros m a b w' Hm.
    split; [apply val_step_on_device|].
    apply (val_step_class_loss config "cpu" _ m0 m a b w' Hm).
  - intros. apply trained_load. assumption.
  - apply trained_refl.
Qed.

End DeviceFallback.

(** C10 as stated fails: the fallback is not silent.  With 'cuda:0'
    configured on a machine without CUDA, device selection prints a line
    before it continues with 'cpu'. *)
Lemma fallback_is_announced :
  (Config.device Toy.config0 = "cuda:0" /\
   @torch_cuda_is_available Toy.torch Toy.mixed = false /\
   @select_device Toy.torch Toy.config0 Toy.mixed =
     ("cpu", ["Could not find GPU, reverting to CPU training!"])) /\
  ~ @falls_back_silently Toy.torch Toy.config0 Toy.mixed.
Proof.
  split; [repeat split; reflexivity|].
  unfold falls_back_silently. vm_compute. discriminate.
Qed.

(** ** The search *)

Section LimiterInvariant.

Context {T C : Type} (a : Tune.run_args T C).
Context (alg : Tune.searcher) (max_concurrent : nat).
Hypothesis limited : Tune.search_alg a = Tune.ConcurrencyLimiter alg max_concurrent.

Lemma suggest_below_limit (live : gset nat) :
  Tune.suggest (Tune.search_alg a) live = true -> (size live < max_concurrent)%nat.
Proof.
  rewrite limited. cbn [Tune.suggest].
  destruct (decide (max_concurrent <= size live)%nat); [discriminate | lia].
Qed.

Lemma size_remove (live : gset nat) (t : nat) : (size (live ∖ {[t]}) <= size live)%nat.
Proof. apply subseteq_size. set_solver. Qed.

Lemma step_within_limit r e r' :
  within_limit max_concurrent r -> Tune.step a r e r' -> within_limit max_concurrent r'.
Proof.
  intros [Hsub Hsize] Hstep. unfold within_limit.
  destruct Hstep as [r _ _ Hs | r t _ Hlive _ | r t _ | r t _]; cbn [Tune.live Tune.running].
  - apply suggest_below_limit in Hs. split; [set_solver|].
    rewrite size_union_alt, size_singleton.
    pose proof (size_remove (Tune.live r) (Tune.created r)). lia.
  - split; [set_solver | exact Hsize].
  - split; [set_solver|].
    pose proof (size_remove (Tune.live r) t). lia.
  - destruct (Tune.fail_fast a); cbn [Tune.live Tune.running].
    + split; [set_solver | rewrite size_empty; lia].
    + split; [set_solver|].
      pose proof (size_remove (Tune.live r) t). lia.
Qed.

Lemma reachable_within_limit r :
  Tune.reachable a r -> within_limit max_concurrent r.
Proof.
  induction 1 as [|r e r' _ IH Hstep].
  - split; [set_solver | cbn; rewrite size_empty; lia].
  - eapply step_within_limit; eassumption.
Qed.

Lemma reachable_running_bound r :
  Tune.reachable a r -> (size (Tune.running r) <= max_concurrent)%nat.
Proof.
  intros Hr. destruct (reachable_within_limit r Hr) as [Hsub Hsize].
  pose proof (subseteq_size _ _ Hsub). lia.
Qed.

End LimiterInvariant.

Section StoppedRunner.

Context {T C : Type} (a : Tune.run_args T C).

(** A stopped runner with no trial left takes no step. *)
Lemma stopped_is_final r e r' :
  Tune.stopped r = true -> Tune.running r = ∅ -> ~ Tune.step a r e r'.
Proof.
  intros Hstop Hrun Hstep.
  destruct Hstep as [r Hs _ _ | r t Hs _ _ | r t Hin | r t Hin];
    try congruence; rewrite Hrun in Hin; set_solver.
Qed.

End StoppedRunner.

Lemma get_of_key {V : Type} (d : Py.dict V) (k : string) :
  In k (Py.keys d) -> exists v, Py.get d k = Some v.
Proof.
  induction d as [|[k' v] d IH]; cbn; [tauto|].
  intros [->|Hin].
  - rewrite String.eqb_refl. eauto.
  - destruct (String.eqb k' k); eauto.
Qed.

Section SearchProperties.

Context `{Torch} {search_space : Type} (config : search_space).

(** C1.  [run_optuna_tune] hands [tune.run] the Optuna search wrapped in a
    [ConcurrencyLimiter] with [max_concurrent = 6]; in no state the run
    passes through do more than 6 trials execute. *)
Theorem search_runs_at_most_six_trials (smoke_test : bool) (r : Tune.runner) :
  Tune.reachable (run_optuna_tune config smoke_test) r ->
  Tune.search_alg (run_optuna_tune config smoke_test) =
    Tune.ConcurrencyLimiter Tune.OptunaSearch 6 /\
  (size (Tune.running r) <= 6)%nat.
Proof.
  intros Hr. split; [reflexivity|].
  eapply reachable_running_bound; [|exact Hr]. reflexivity.
Qed.

(** C2.  [tune.run] is called with [fail_fast = True]: the step in which a
    trial raises stops the experiment, leaves no trial executing or live,
    and is the last step of the search. *)
Theorem first_error_aborts_search (smoke_test : bool) (r r' : Tune.runner)
    (trial_id : nat) :
  Tune.step (run_optuna_tune config smoke_test) r (Tune.Error trial_id) r' ->
  Tune.fail_fast (run_optuna_tune config smoke_test) = true /\
  Tune.stopped r' = true /\ Tune.running r' = ∅ /\ Tune.live r' = ∅ /\
  forall e r'', ~ Tune.step (run_optuna_tune config smoke_test) r' e r''.
Proof.
  intros Hstep. inversion Hstep as [ | | | r0 t Hin Hr He Hr']; subst.
  cbn [Tune.fail_fast run_optuna_tune Tune.stopped Tune.running Tune.live].
  repeat (split; [reflexivity|]).
  intros e r''. apply stopped_is_final; reflexivity.
Qed.

(** C5.  [tune.run] is given an [AsyncHyperBandScheduler] as its trial
    scheduler and is told to minimise the metric 'total_loss', which every
    report of the trainable, [train_sinkhorn_vae], carries. *)
Theorem search_minimises_total_loss_under_async_hyperband (smoke_test : bool) :
  let a := run_optuna_tune config smoke_test in
  Tune.scheduler a = Tune.AsyncHyperBandScheduler /\
  Tune.metric a = "total_loss" /\
  Tune.mode a = "min" /\
  Tune.run_or_experiment a = train_sinkhorn_vae /\
  forall trial_config checkpoint_dir w,
    Forall (fun report => exists v, Py.get report (Tune.metric a) = Some v)
           (yields (fst (Tune.run_or_experiment a trial_config checkpoint_dir w))).
Proof.
  intros a. repeat (split; [reflexivity|]).
  intros trial_config checkpoint_dir w.
  cbn [a run_optuna_tune Tune.run_or_experiment Tune.metric].
  apply trial_yields. intros bn acc report Hrep.
  apply epoch_report_ok in Hrep. destruct Hrep as (_ & _ & _ & _ & Hkeys & _).
  apply get_of_key. rewrite Hkeys. left. reflexivity.
Qed.

End SearchProperties.

(** ** The theorems on concrete inputs *)

Lemma elem_of_ids (k i : nat) : i ∈ Cases.ids k <-> (i < k)%nat.
Proof.
  induction k as [|k IH]; cbn [Cases.ids]; [set_solver by lia|].
  rewrite elem_of_union, elem_of_singleton, IH. lia.
Qed.

Lemma size_ids (k : nat) : size (Cases.ids k) = k.
Proof.
  induction k as [|k IH]; cbn [Cases.ids]; [apply size_empty|].
  rewrite size_union, size_singleton, IH; [reflexivity|].
  intros i Hi Hk. apply elem_of_singleton in Hi. subst i.
  apply elem_of_ids in Hk. lia.
Qed.

(** The full search ([smoke_test = False], 20 samples) reaches the state
    with [k <= 6] trials suggested and the first [j <= k] of them started. *)
Lemma suggested_started_is_reachable (k j : nat) :
  (j <= k <= 6)%nat ->
  Tune.reachable (@run_optuna_tune Toy.torch unit tt false) (Cases.suggested_started k j).
Proof.
  intros [Hjk Hk].
  induction j as [|j IHj].
  - clear Hjk. induction k as [|k IHk]; [apply Tune.reachable_init|].
    apply (Tune.reachable_step _ (Cases.suggested_started k 0) (Tune.Suggest k));
      [apply IHk; lia|].
    apply (Tune.step_suggest _ (Cases.suggested_started k 0)).
    + reflexivity.
    + cbn. lia.
    + cbn [Tune.suggest Tune.search_alg run_optuna_tune Tune.live
           Cases.suggested_started].
      rewrite size_ids. destruct (decide (6 <= k)%nat); [lia | reflexivity].
  - apply (Tune.reachable_step _ (Cases.suggested_started k j) (Tune.Start j));
      [apply IHj; lia|].
    apply (Tune.step_start _ (Cases.suggested_started k j) j).
    + reflexivity.
    + apply elem_of_ids. lia.
    + intros Hin. apply elem_of_ids in Hin. lia.
Qed.

(** A runner whose search algorithm proposes nothing creates no trial. *)
Lemma refused_suggestion_is_no_step {T C : Type} (a : Tune.run_args T C)
    (r r' : Tune.runner) (i : nat) :
  Tune.suggest (Tune.search_alg a) (Tune.live r) = false ->
  ~ Tune.step a r (Tune.Suggest i) r'.
Proof.
  intros Hno Hstep. inversion Hstep as [r0 _ _ Hyes | | | ]; subst. congruence.
Qed.

(** Six trials run under the full search and the seventh is refused: the
    limiter proposes nothing although 14 of the 20 samples are left. *)
Lemma six_trials_run_and_the_seventh_is_refused :
  let a := @run_optuna_tune Toy.torch unit tt false in
  let r := Cases.suggested_started 6 6 in
  Tune.reachable a r /\
  (size (Tune.running r) = 6%nat /\
   (Z.of_nat (Tune.created r) < Tune.num_samples a)%Z /\
   Tune.suggest (Tune.search_alg a) (Tune.live r) = false /\
   Tune.suggest Tune.OptunaSearch (Tune.live r) = true /\
   forall i r', ~ Tune.step a r (Tune.Suggest i) r') /\
  Tune.search_alg a = Tune.ConcurrencyLimiter Tune.OptunaSearch 6 /\
  (size (Tune.running r) <= 6)%nat.
Proof.
  intros a r.
  assert (Hr : Tune.reachable a r)
    by (apply suggested_started_is_reachable; split; apply le_n).
  assert (Hno : Tune.suggest (Tune.search_alg a) (Tune.live r) = false).
  { cbn [Tune.suggest Tune.search_alg run_optuna_tune a r Tune.live
         Cases.suggested_started].
    rewrite size_ids. reflexivity. }
  split; [exact Hr|]. split.
  - split; [apply (size_ids 6)|]. split; [reflexivity|].
    split; [exact Hno|]. split; [reflexivity|].
    intros i r'. apply refused_suggestion_is_no_step. exact Hno.
  - apply (@search_runs_at_most_six_trials Toy.torch unit tt false r Hr).
Defined.

Lemma error_of_the_only_trial_aborts :
  let a := @run_optuna_tune Toy.torch unit tt true in
  let r := {| Tune.live := {[0%nat]} ∪ ∅; Tune.running := {[0%nat]} ∪ ∅;
              Tune.created := 1; Tune.stopped := false |} in
  let r' := {| Tune.live := ∅; Tune.running := ∅;
               Tune.created := 1; Tune.stopped := true |} in
  Tune.step a r (Tune.Error 0) r' /\
  Tune.stopped r' = true /\ Tune.running r' = ∅ /\
  forall e r'', ~ Tune.step a r' e r''.
Proof.
  intros a r r'.
  assert (Hstep : Tune.step a r (Tune.Error 0) r').
  { apply (Tune.step_error a r 0%nat). cbn. set_solver. }
  split; [exact Hstep|].
  destruct (@first_error_aborts_search Toy.torch unit tt true r r' 0%nat Hstep)
    as (_ & Hs & Hr & _ & Hfinal).
  auto.
Defined.

Lemma no_positive_prediction_fails_the_trial :
  let l := {| l_model := tt : @vae Toy.torch; l_optimizer := tt : @optim Toy.torch;
              l_batch_num := None |} in
  let tl := Toy.train_data Toy.all_negative in
  let vl := Toy.val_data Toy.all_negative in
  let ep := fst (@epoch Toy.torch Toy.config0 "cpu" [0.5%float] tl vl l Toy.all_negative) in
  let run :=
    fst (@epochs Toy.torch Toy.config0 "cpu" [0.5%float] tl vl 2 l Toy.all_negative) in
  Forall (@no_positive_prediction Toy.torch Toy.config0) (snd ep) /\
  zero_denominator (snd (fst (fst ep))) /\
  yields run = [] /\ raised run = Some Py.ZeroDivisionError.
Proof.
  intros l tl vl ep run.
  destruct (@metric_divisions_are_unguarded Toy.torch Toy.config0 "cpu" [0.5%float]
              tl vl 1 l Toy.all_negative) as (_ & Hzero & Hno).
  assert (Hnone : Forall (@no_positive_prediction Toy.torch Toy.config0) (snd ep)).
  { vm_compute. repeat constructor. }
  destruct (Hno Hnone) as [_ Hz].
  destruct (Hzero Hz) as [(e & _ & Hy & _) Hraise].
  split; [exact Hnone|]. split; [exact Hz|]. split; [exact Hy|].
  apply (Hraise 0%Z). reflexivity.
Defined.

Lemma fallback_without_gpu :
  Config.device Toy.config0 = "cuda:0" /\
  @torch_cuda_is_available Toy.torch Toy.mixed = false /\
  @select_device Toy.torch Toy.config0 Toy.mixed =
    ("cpu", ["Could not find GPU, reverting to CPU training!"]) /\
  printed (fst (@train_sinkhorn_vae Toy.torch Toy.config0 None Toy.mixed)) =
    ["Could not find GPU, reverting to CPU training!"] /\
  yields (fst (@train_sinkhorn_vae Toy.torch Toy.config0 None Toy.mixed)) =
    yields (fst (@train_on Toy.torch "cpu" Toy.config0 None Toy.mixed)).
Proof.
  destruct (@cuda_unavailable_falls_back_to_cpu Toy.torch Toy.config0 None Toy.mixed
              eq_refl eq_refl) as (Hsel & Hprint & (Hy & _) & _).
  split; [reflexivity|]. split; [reflexivity|].
  split; [exact Hsel|]. split; [exact Hprint | exact Hy].
Defined.

(** A complete epoch loop: two epochs, two reports; the counts of its
    validation pass are tp = 1, fp = 2, tn = 1, fn = 1. *)
Example mixed_loop_reports :
  let run :=
    fst (@epochs Toy.torch Toy.config0 "cpu" [0.5%float]
           (Toy.train_data Toy.mixed) (Toy.val_data Toy.mixed) 2 Cases.start
           Toy.mixed) in
  List.length (yields run) = 2%nat /\ raised run = None /\
  List.map (fun report => Py.get report "accuracy") (yields run) =
    [Some 0.5%float; Some 0.5%float] /\
  List.map (fun report => Py.get report "total_loss") (yields run) =
    [Some 6.5%float; Some 6.5%float] /\
  List.length (train_steps run) = 2%nat /\ List.length (val_steps run) = 2%nat.
Proof. vm_compute. repeat split; reflexivity. Qed.

(** With no data at all, [batch_num] is never bound and the first [yield]
    of the epoch loop raises [NameError]. *)
Example empty_loop_raises_name_error :
  let run :=
    fst (@epochs Toy.torch Toy.config0 "cpu" [0.5%float]
           (Toy.train_data Toy.empty_gpu) (Toy.val_data Toy.empty_gpu) 2 Cases.start
           Toy.empty_gpu) in
  yields run = [] /\ raised run = Some Py.NameError /\ printed run = [].
Proof. vm_compute. repeat split; reflexivity. Qed.

(** * Further properties of the trial *)

(** ** What one pass over a loader does *)

Section Passes.

Context `{Torch}.
Variables (config : Config.t) (device : string) (cp : tensor).

Lemma val_step_effect m a b w :
  let r := fst (val_step config device cp m a b w) in
  (model (snd r) = m /\ features (snd r) = batch_features device b /\
   posts (snd r) = batch_posts device b) /\
  (loss_accum (fst r) = PrimFloat.add (loss_accum a) (tensor_item (loss (snd r))) /\
   class_accum (fst r) = PrimFloat.add (class_accum a) (tensor_item (class_loss (snd r))) /\
   dist_accum (fst r) =
     PrimFloat.add (dist_accum a) (tensor_item (distribution_loss (snd r))) /\
   recon_accum (fst r) =
     PrimFloat.add (recon_accum a) (tensor_item (reconstruction_loss (snd r)))) /\
  (tp_accum (fst r) = tp_accum a + true_positives config (snd r) /\
   fp_accum (fst r) = fp_accum a + false_positives config (snd r) /\
   tn_accum (fst r) = tn_accum a + true_negatives config (snd r) /\
   fn_accum (fst r) = fn_accum a + false_negatives config (snd r))%Z.
Proof.
  unfold true_positives, false_positives, true_negatives, false_negatives,
    binary_predictions, batch_features, batch_posts.
  open_step. repeat split; reflexivity.
Qed.

Lemma train_step_effect m o b w :
  let s := snd (fst (train_step config device cp m o b w)) in
  model s = zero_grad m o /\ features s = batch_features device b /\
  posts s = batch_posts device b.
Proof.
  unfold batch_features, batch_posts. open_step. repeat split; reflexivity.
Qed.

(** The training loop runs its body once per batch, in the order of the
    loader, and leaves [batch_num] at the index of the last batch. *)
Lemma train_loop_effect batches : forall i l w,
  let r := fst (train_loop config device cp batches i l w) in
  List.map features (snd r) = List.map (batch_features device) batches /\
  List.map posts (snd r) = List.map (batch_posts device) batches /\
  l_batch_num (fst r) =
    match batches with
    | [] => l_batch_num l
    | _ :: _ => Some (i + Z.of_nat (List.length batches) - 1)%Z
    end.
Proof.
  induction batches as [|b rest IH]; intros i l w; [simpl; auto|].
  cbn [train_loop].
  pose proof (train_step_effect (l_model l) (l_optimizer l) b w) as Hs.
  destruct (train_step config device cp (l_model l) (l_optimizer l) b w)
    as [[[m o] s] w1]; cbn [fst snd] in Hs.
  destruct Hs as (_ & Hf & Hp).
  specialize (IH (i + 1)%Z {| l_model := m; l_optimizer := o; l_batch_num := Some i |} w1).
  destruct (train_loop config device cp rest (i + 1)
              {| l_model := m; l_optimizer := o; l_batch_num := Some i |} w1)
    as [[l' ss] w2]; cbn [fst snd List.map l_batch_num] in *.
  destruct IH as (IHf & IHp & IHn).
  rewrite Hf, Hp, IHf, IHp, IHn.
  repeat split. destruct rest; cbn [List.length]; f_equal; lia.
Qed.

(** The validation loop runs its body once per batch, in order, on the
    model it was given; it changes neither the model nor the optimizer and
    leaves [batch_num] at the index of the last batch. *)
Lemma val_loop_effect batches : forall i l a w,
  let r := fst (val_loop config device cp batches i l a w) in
  (List.map features (snd r) = List.map (batch_features device) batches /\
   List.map posts (snd r) = List.map (batch_posts device) batches /\
   Forall (fun s => model s = l_model l) (snd r)) /\
  (l_model (fst (fst r)) = l_model l /\ l_optimizer (fst (fst r)) = l_optimizer l) /\
  l_batch_num (fst (fst r)) =
    match batches with
    | [] => l_batch_num l
    | _ :: _ => Some (i + Z.of_nat (List.length batches) - 1)%Z
    end.
Proof.
  induction batches as [|b rest IH]; intros i l a w; [simpl; auto|].
  cbn [val_loop].
  pose proof (val_step_effect (l_model l) a b w) as Hs.
  destruct (val_step config device cp (l_model l) a b w) as [[a1 s] w1];
    cbn [fst snd] in Hs.
  destruct Hs as ((Hm & Hf & Hp) & _).
  specialize (IH (i + 1)%Z
                {| l_model := l_model l; l_optimizer := l_optimizer l;
                   l_batch_num := Some i |} a1 w1).
  destruct (val_loop config device cp rest (i + 1) _ a1 w1) as [[[l' a2] ss] w2];
    cbn [fst snd List.map l_model l_optimizer l_batch_num] in *.
  destruct IH as ((IHf & IHp & IHm) & (IHl & IHo) & IHn).
  rewrite Hf, Hp, IHf, IHp, IHn.
  repeat split; try assumption.
  - constructor; assumption.
  - destruct rest; cbn [List.length]; f_equal; lia.
Qed.

(** The float accumulators after the validation loop: each value of the
    loop added, in order, to the accumulator before it. *)
Lemma val_loop_sums batches : forall i l a w,
  let r := fst (val_loop config device cp batches i l a w) in
  loss_accum (snd (fst r)) =
    List.fold_left PrimFloat.add
      (List.map (fun s => tensor_item (loss s)) (snd r)) (loss_accum a) /\
  class_accum (snd (fst r)) =
    List.fold_left PrimFloat.add
      (List.map (fun s => tensor_item (class_loss s)) (snd r)) (class_accum a) /\
  dist_accum (snd (fst r)) =
    List.fold_left PrimFloat.add
      (List.map (fun s => tensor_item (distribution_loss s)) (snd r)) (dist_accum a) /\
  recon_accum (snd (fst r)) =
    List.fold_left PrimFloat.add
      (List.map (fun s => tensor_item (reconstruction_loss s)) (snd r)) (recon_accum a).
Proof.
  induction batches as [|b rest IH]; intros i l a w; [simpl; auto|].
  cbn [val_loop].
  pose proof (val_step_effect (l_model l) a b w) as Hs.
  destruct (val_step config device cp (l_model l) a b w) as [[a1 s] w1];
    cbn [fst snd] in Hs.
  destruct Hs as (_ & (H1 & H2 & H3 & H4) & _).
  specialize (IH (i + 1)%Z
                {| l_model := l_model l; l_optimizer := l_optimizer l;
                   l_batch_num := Some i |} a1 w1).
  destruct (val_loop config device cp rest (i + 1) _ a1 w1) as [[[l' a2] ss] w2];
    cbn [fst snd List.map List.fold_left] in *.
  destruct IH as (IH1 & IH2 & IH3 & IH4).
  rewrite IH1, IH2, IH3, IH4, H1, H2, H3, H4. auto.
Qed.

(** The four counters after the validation loop. *)
Lemma val_loop_confusion batches : forall i l a w,
  let r := fst (val_loop config device cp batches i l a w) in
  (tp_accum (snd (fst r)) = tp_accum a + sum_over (true_positives config) (snd r) /\
   fp_accum (snd (fst r)) = fp_accum a + sum_over (false_positives config) (snd r) /\
   tn_accum (snd (fst r)) = tn_accum a + sum_over (true_negatives config) (snd r) /\
   fn_accum (snd (fst r)) = fn_accum a + sum_over (false_negatives config) (snd r))%Z.
Proof.
  induction batches as [|b rest IH]; intros i l a w; [simpl; lia|].
  cbn [val_loop].
  pose proof (val_step_effect (l_model l) a b w) as Hs.
  destruct (val_step config device cp (l_model l) a b w) as [[a1 s] w1];
    cbn [fst snd] in Hs.
  destruct Hs as (_ & _ & Hc).
  specialize (IH (i + 1)%Z
                {| l_model := l_model l; l_optimizer := l_optimizer l;
                   l_batch_num := Some i |} a1 w1).
  destruct (val_loop config device cp rest (i + 1) _ a1 w1) as [[[l' a2] ss] w2];
    unfold sum_over in *; cbn [fst snd List.fold_right] in *.
  lia.
Qed.

End Passes.

(** ** What a report contains *)

Section ReportContent.

Context `{Torch}.

(** A report that is produced is this dict, entry by entry. *)
Lemma epoch_report_content batch_num a report :
  epoch_report batch_num a = inr report ->
  exists n,
    batch_num = Some n /\
    report =
      [ ("total_loss", PrimFloat.div (loss_accum a) (Py.float_of_int (n + 1)));
        ("class_loss", PrimFloat.div (class_accum a) (Py.float_of_int (n + 1)));
        ("dist_loss", PrimFloat.div (dist_accum a) (Py.float_of_int (n + 1)));
        ("recon_loss", PrimFloat.div (recon_accum a) (Py.float_of_int (n + 1)));
        ("precision",
         PrimFloat.div (Py.float_of_int (tp_accum a))
                       (Py.float_of_int (tp_accum a + fp_accum a)));
        ("recall",
         PrimFloat.div (Py.float_of_int (tp_accum a))
                       (Py.float_of_int (tp_accum a + fn_accum a)));
        ("accuracy", reported_accuracy a);
        ("specificity",
         PrimFloat.div (Py.float_of_int (tn_accum a))
                       (Py.float_of_int (tn_accum a + fp_accum a)));
        ("f1_score", reported_f1_score a) ].
Proof.
  unfold epoch_report. destruct batch_num as [n|]; [|discriminate].
  unfold Py.float_div_int, Py.int_truediv, Py.int_div_float, Py.int_add_float.
  destruct (n + 1 =? 0)%Z; [discriminate|]. cbn [Py.bind Py.ok].
  destruct (tp_accum a + fp_accum a =? 0)%Z; [discriminate|]. cbn [Py.bind Py.ok].
  destruct (tp_accum a + fn_accum a =? 0)%Z; [discriminate|]. cbn [Py.bind Py.ok].
  destruct (tp_accum a + fn_accum a + tn_accum a + fn_accum a =? 0)%Z;
    [discriminate|]. cbn [Py.bind Py.ok].
  destruct (tn_accum a + fp_accum a =? 0)%Z; [discriminate|]. cbn [Py.bind Py.ok].
  destruct (PrimFloat.eqb _ 0); [discriminate|]. cbn [Py.bind Py.ok].
  intros [= <-]. exists n. split; reflexivity.
Qed.

(** With the accumulators still at their initial values the [yield]
    expression raises: [NameError] when [batch_num] is unbound,
    [ZeroDivisionError] otherwise. *)
Lemma epoch_report_initial batch_num :
  epoch_report batch_num accum_init =
  inl (match batch_num with None => Py.NameError | Some _ => Py.ZeroDivisionError end).
Proof.
  destruct batch_num as [n|]; [|reflexivity].
  apply epoch_report_zero_division. left. reflexivity.
Qed.

(** The epoch loop opened: the two loops of one epoch, by name. *)
Lemma epoch_unfold config device cp tl vl l w :
  exists tb w1 l1 ts w2 vb w3 l2 a vs w4,
    iterate tl w = (tb, w1) /\
    train_loop config device cp tb 0 l w1 = ((l1, ts), w2) /\
    iterate vl w2 = (vb, w3) /\
    val_loop config device cp vb 0 l1 accum_init w3 = ((l2, a, vs), w4) /\
    epoch config device cp tl vl l w = ((l2, a, ts, vs), w4).
Proof.
  unfold epoch.
  destruct (iterate tl w) as [tb w1] eqn:H1.
  destruct (train_loop config device cp tb 0 l w1) as [[l1 ts] w2] eqn:H2.
  destruct (iterate vl w2) as [vb w3] eqn:H3.
  destruct (val_loop config device cp vb 0 l1 accum_init w3) as [[[l2 a] vs] w4] eqn:H4.
  exists tb, w1, l1, ts, w2, vb, w3, l2, a, vs, w4. auto.
Qed.

(** X1.  The four loss entries of a report are means over the validation
    pass of its epoch: a report is only produced when that pass had at
    least one batch, and then [total_loss], [class_loss], [dist_loss] and
    [recon_loss] are the sums of the per-batch values, added in order,
    divided by the number of validation batches. *)
Theorem reported_losses_are_validation_means (config : Config.t) (device : string)
    (cp : tensor) (tl vl : data_loader) (l : locals) (w : world)
    (report : Py.dict float) :
  let ep := fst (epoch config device cp tl vl l w) in
  let vs := snd ep in
  epoch_report (l_batch_num (fst (fst (fst ep)))) (snd (fst (fst ep))) = inr report ->
  vs <> [] /\
  Py.get report "total_loss" = Some (mean_over loss vs) /\
  Py.get report "class_loss" = Some (mean_over class_loss vs) /\
  Py.get report "dist_loss" = Some (mean_over distribution_loss vs) /\
  Py.get report "recon_loss" = Some (mean_over reconstruction_loss vs).
Proof.
  destruct (epoch_unfold config device cp tl vl l w)
    as (tb & w1 & l1 & ts & w2 & vb & w3 & l2 & a & vs & w4 & _ & _ & _ & Hval & ->).
  cbn [fst snd]. intros Hrep.
  pose proof (val_loop_effect config device cp vb 0%Z l1 accum_init w3) as He.
  pose proof (val_loop_sums config device cp vb 0%Z l1 accum_init w3) as Hs.
  pose proof (val_loop_confusion config device cp vb 0%Z l1 accum_init w3) as Hc.
  rewrite Hval in He, Hs, Hc. cbn [fst snd] in He, Hs, Hc.
  destruct He as ((Hf & _ & _) & _ & Hn).
  assert (Hlen : List.length vs = List.length vb).
  { rewrite <- (List.length_map features vs), Hf. apply List.length_map. }
  destruct vb as [|b vb'].
  - destruct vs; [|discriminate]. cbn in Hc.
    apply epoch_report_ok in Hrep. destruct Hrep as (_ & Hz & _).
    destruct Hc as (Ht & Hp & _). rewrite Ht, Hp in Hz. contradiction.
  - split; [destruct vs; [discriminate | congruence]|].
    assert (Hn' : l_batch_num l2 = Some (Z.of_nat (List.length vs) - 1)%Z)
      by (rewrite Hn, Hlen; f_equal; lia).
    rewrite Hn' in Hrep. apply epoch_report_content in Hrep.
    destruct Hrep as (n & [= <-] & ->).
    replace (Z.of_nat (List.length vs) - 1 + 1)%Z
      with (Z.of_nat (List.length vs)) by lia.
    destruct Hs as (-> & -> & -> & ->).
    repeat split; reflexivity.
Qed.

End ReportContent.

(** ** Epochs without validation data *)

Section EmptyValidation.

Context `{Torch}.


(** X2.  An epoch whose validation loader yields no batch never reports:
    its [yield] expression raises, nothing is yielded from that epoch on
    and the epoch loop ends with the exception.  The exception is
    [NameError] when [batch_num] is still unbound and the training loader
    yields no batch either, and [ZeroDivisionError] otherwise ([batch_num]
    is left over from a training loop and the precision divides by
    tp + fp = 0). *)
Theorem epoch_without_validation_never_reports (config : Config.t) (device : string)
    (cp : tensor) (tl vl : data_loader) (n : nat) (l : locals) (w : world) :
  (forall w', fst (iterate vl w') = []) ->
  yields (fst (epochs config device cp tl vl (S n) l w)) = [] /\
  raised (fst (epochs config device cp tl vl (S n) l w)) =
    Some (match fst (iterate tl w), l_batch_num l with
          | [], None => Py.NameError
          | _, _ => Py.ZeroDivisionError
          end).
Proof.
  intros Hempty. apply epochs_raise.
  destruct (epoch_unfold config device cp tl vl l w)
    as (tb & w1 & l1 & ts & w2 & vb & w3 & l2 & a & vs & w4
        & Htb & Htrain & Hvb & Hval & ->).
  pose proof (Hempty w2) as Hnil. rewrite Hvb in Hnil. cbn [fst] in Hnil. subst vb.
  cbn [val_loop] in Hval. injection Hval as <- <- <- <-.
  pose proof (train_loop_effect config device cp tb 0%Z l w1) as (_ & _ & Hn).
  rewrite Htrain in Hn. cbn [fst snd] in Hn |- *.
  rewrite Htb. cbn [fst]. rewrite epoch_report_initial, Hn.
  destruct tb; [destruct (l_batch_num l)|]; reflexivity.
Qed.

End EmptyValidation.

(** ** The confusion counters *)

Section Counters.

Context `{Torch}.

Lemma eq_scalar_one (t : list bool) : BoolTensor.eq_scalar t 1%float = t.
Proof.
  unfold BoolTensor.eq_scalar.
  induction t as [|[] t IH]; cbn [List.map]; [reflexivity| |]; rewrite IH; reflexivity.
Qed.

Lemma eq_scalar_zero (t : list bool) : BoolTensor.eq_scalar t 0%float = List.map negb t.
Proof.
  unfold BoolTensor.eq_scalar.
  induction t as [|[] t IH]; cbn [List.map]; [reflexivity| |]; rewrite IH; reflexivity.
Qed.


Lemma sum_cons (b : bool) (t : list bool) :
  BoolTensor.sum (b :: t) = ((if b then 1 else 0) + BoolTensor.sum t)%Z.
Proof. unfold BoolTensor.sum. destruct b; cbn [List.filter List.length]; lia. Qed.

Lemma and_cons (x y : bool) (a b : list bool) :
  BoolTensor.and (x :: a) (y :: b) = (x && y) :: BoolTensor.and a b.
Proof. reflexivity. Qed.


(** Every prediction is counted once when the labels are binary. *)
Lemma confusion_partition (bp is_one is_zero : list bool) :
  List.length is_one = List.length bp ->
  Forall2 (fun x y : bool => x = negb y) is_one is_zero ->
  (BoolTensor.sum (BoolTensor.and bp is_one) + BoolTensor.sum (BoolTensor.and bp is_zero) +
   BoolTensor.sum (BoolTensor.and (List.map negb bp) is_zero) +
   BoolTensor.sum (BoolTensor.and (List.map negb bp) is_one) =
   Z.of_nat (List.length bp))%Z.
Proof.
  intros Hlen Hlab. revert bp Hlen.
  induction Hlab as [|x y is_one is_zero Hxy _ IH]; intros bp Hlen.
  - destruct bp; [reflexivity | discriminate].
  - destruct bp as [|b bp]; [discriminate|].
    injection Hlen as Hlen. specialize (IH bp Hlen).
    cbn [List.map List.length]. rewrite !and_cons, !sum_cons.
    subst x. destruct b, y; cbn [andb negb]; lia.
Qed.



Lemma epoch_confusion config device cp tl vl l w :
  let ep := fst (epoch config device cp tl vl l w) in
  let a := snd (fst (fst ep)) in
  (tp_accum a = sum_over (true_positives config) (snd ep) /\
   fp_accum a = sum_over (false_positives config) (snd ep) /\
   tn_accum a = sum_over (true_negatives config) (snd ep) /\
   fn_accum a = sum_over (false_negatives config) (snd ep))%Z.
Proof.
  destruct (epoch_unfold config device cp tl vl l w)
    as (tb & w1 & l1 & ts & w2 & vb & w3 & l2 & a & vs & w4 & _ & _ & _ & Hval & ->).
  pose proof (val_loop_confusion config device cp vb 0%Z l1 accum_init w3) as Hc.
  rewrite Hval in Hc. cbn [fst snd accum_init tp_accum fp_accum tn_accum fn_accum] in *.
  lia.
Qed.


(** X4.  When the labels of every validation batch of an epoch are binary
    (each label is exactly one of 1.0 and 0.0, one per prediction), the
    four counters of the epoch add up to the number of predictions of its
    validation pass: every prediction is counted exactly once. *)
Theorem binary_labels_are_counted_once (config : Config.t) (device : string)
    (cp : tensor) (tl vl : data_loader) (l : locals) (w : world) :
  let ep := fst (epoch config device cp tl vl l w) in
  let a := snd (fst (fst ep)) in
  Forall (binary_labels config) (snd ep) ->
  (tp_accum a + fp_accum a + tn_accum a + fn_accum a =
   sum_over (predictions config) (snd ep))%Z.
Proof.
  intros ep a Hlab.
  destruct (epoch_confusion config device cp tl vl l w) as (Htp & Hfp & Htn & Hfn).
  fold ep in Htp, Hfp, Htn, Hfn. fold a in Htp, Hfp, Htn, Hfn.
  rewrite Htp, Hfp, Htn, Hfn. clear Htp Hfp Htn Hfn.
  unfold sum_over.
  induction Hlab as [|s steps [Hlen Hs] _ IH]; cbn [List.fold_right]; [reflexivity|].
  pose proof (confusion_partition (binary_predictions config s) _ _ Hlen Hs) as Hp.
  unfold true_positives, false_positives, true_negatives, false_negatives, predictions
    in *.
  rewrite !eq_scalar_one, !eq_scalar_zero. lia.
Qed.

End Counters.

(** ** Training steps and validation steps, each with its own property *)

Section TwoPredicates.

Context `{Torch}.
Variables (config : Config.t) (device : string) (cp : tensor).
Variables (Pt Pv : step -> Prop).

Hypothesis train_step_has : forall m o b w,
  Pt (snd (fst (train_step config device cp m o b w))).

Hypothesis val_step_has : forall m a b w,
  Pv (snd (fst (val_step config device cp m a b w))).

Lemma epoch_steps tl vl l w :
  Forall Pt (snd (fst (fst (epoch config device cp tl vl l w)))) /\
  Forall Pv (snd (fst (epoch config device cp tl vl l w))).
Proof.
  destruct (epoch_unfold config device cp tl vl l w)
    as (tb & w1 & l1 & ts & w2 & vb & w3 & l2 & a & vs & w4
        & _ & Htrain & _ & Hval & ->).
  cbn [fst snd]. split.
  - pose proof (train_loop_inv config device cp (fun _ => True) Pt
                  (fun m o b w' _ => conj Logic.I (train_step_has m o b w'))
                  tb 0%Z l w1 Logic.I) as [_ Hf].
    rewrite Htrain in Hf. exact Hf.
  - pose proof (val_loop_inv config device cp (fun _ => True) Pv
                  (fun m a' b w' _ => val_step_has m a' b w')
                  vb 0%Z l1 accum_init w3 Logic.I) as [_ Hf].
    rewrite Hval in Hf. exact Hf.
Qed.

Lemma epochs_steps tl vl n : forall l w,
  Forall Pt (train_steps (fst (epochs config device cp tl vl n l w))) /\
  Forall Pv (val_steps (fst (epochs config device cp tl vl n l w))).
Proof.
  induction n as [|n IH]; intros l w; cbn [epochs]; [split; constructor|].
  pose proof (epoch_steps tl vl l w) as He.
  destruct (epoch config device cp tl vl l w) as [[[[l1 a] ts] vs] w1];
    cbn [fst snd] in He.
  destruct He as [Ht Hv].
  destruct (epoch_report (l_batch_num l1) a) as [e|report]; cbn [fst train_steps val_steps].
  - split; assumption.
  - specialize (IH l1 w1).
    destruct (epochs config device cp tl vl n l1 w1) as [r w2];
      cbn [fst train_steps val_steps] in *.
    destruct IH as [IHt IHv].
    split; apply Forall_app; split; assumption.
Qed.

End TwoPredicates.

Section StepProperties.

Context `{Torch}.

(** A property of the training steps and one of the validation steps,
    each established by its loop body, hold throughout a trial. *)
Lemma trial_steps_by_kind (Pt Pv : string -> step -> Prop)
    (config : Config.t) (checkpoint_dir : option string) (w : world) :
  (forall device cp m o b w', Pt device (snd (fst (train_step config device cp m o b w')))) ->
  (forall device cp m a b w', Pv device (snd (fst (val_step config device cp m a b w')))) ->
  let run := fst (train_sinkhorn_vae config checkpoint_dir w) in
  let device := fst (select_device config w) in
  Forall (Pt device) (train_steps run) /\ Forall (Pv device) (val_steps run).
Proof.
  intros Ht Hv run device.
  destruct (train_sinkhorn_vae_steps run config checkpoint_dir w eq_refl)
    as (-> & -> & _).
  destruct (train_on_epochs (fst (select_device config w)) config checkpoint_dir w)
    as (cp & tl & vl & l & w' & ->).
  apply epochs_steps; intros; [apply Ht | apply Hv].
Qed.

Lemma train_step_denoises config device cp m o b w :
  let s := snd (fst (train_step config device cp m o b w)) in
  reconstructs_clean_posts device s /\ encodes_noisy_posts config device s.
Proof.
  unfold reconstructs_clean_posts, encodes_noisy_posts, encodes, batch_posts, train_step.
  destruct (torch_normal _ _ _ w) as [noise w1] eqn:Hnoise.
  set (x := tensor_add _ (tensor_to device noise)).
  destruct (encode (zero_grad m o) x) as [mean logvar] eqn:Henc.
  destruct (reparameterize (zero_grad m o) mean logvar w1) as [e w2] eqn:Hrep.
  destruct (dirichlet_sample _ _ w2) as [d w3].
  destruct (optimizer_step _ o) as [m' o'].
  cbn [fst snd posts logits eps model reconstruction_loss].
  split; [split; [exists b; reflexivity | split; reflexivity]|].
  exists w, w1. rewrite Hnoise. cbn [fst]. fold x. rewrite Henc. cbn [fst snd].
  rewrite Hrep. reflexivity.
Qed.

Lemma val_step_reconstructs config device cp m a b w :
  let s := snd (fst (val_step config device cp m a b w)) in
  reconstructs_clean_posts device s /\ encodes s (posts s).
Proof.
  unfold reconstructs_clean_posts, encodes, batch_posts, val_step.
  set (x := tensor_float (tensor_to device (batch_get b "posts"))).
  destruct (encode m x) as [mean logvar] eqn:Henc.
  destruct (reparameterize m mean logvar w) as [e w2] eqn:Hrep.
  destruct (dirichlet_sample _ _ w2) as [d w3].
  cbn [fst snd posts logits eps model reconstruction_loss].
  split; [split; [exists b; reflexivity | split; reflexivity]|].
  exists w. rewrite Henc. cbn [fst snd]. rewrite Hrep. reflexivity.
Qed.

(** X5.  Noise is added in training only and only on the way into the
    encoder.  In every training step [eps] is drawn from the encoding of the
    batch's posts plus [torch.normal(0, std)] noise of their shape; in every
    validation step it is drawn from the encoding of the posts themselves.
    In both, the reconstruction loss is [MSELoss(posts, logits)] with
    [posts] the batch's own posts and [logits] the decoder's output on
    [eps]. *)
Theorem noise_is_added_in_training_only (config : Config.t)
    (checkpoint_dir : option string) (w : world) :
  let run := fst (train_sinkhorn_vae config checkpoint_dir w) in
  let device := fst (select_device config w) in
  Forall (fun s => reconstructs_clean_posts device s /\
                   encodes_noisy_posts config device s) (train_steps run) /\
  Forall (fun s => reconstructs_clean_posts device s /\ encodes s (posts s))
         (val_steps run).
Proof.
  apply (trial_steps_by_kind
           (fun device s => reconstructs_clean_posts device s /\
                            encodes_noisy_posts config device s)
           (fun device s => reconstructs_clean_posts device s /\ encodes s (posts s)));
    intros.
  - apply train_step_denoises.
  - apply val_step_reconstructs.
Qed.

End StepProperties.

(** ** The structure of an epoch *)

Section EpochStructure.

Context `{Torch}.

(** X7.  In an epoch every batch of the training loader is used by exactly
    one training step and every batch of the validation loader by exactly
    one validation step, in the order the loader yields them: the features
    and posts of the steps are those of the batches, moved to the device
    and converted to float. *)
Theorem each_batch_is_used_once_in_order (config : Config.t) (device : string)
    (cp : tensor) (tl vl : data_loader) (l : locals) (w : world) :
  let ep := fst (epoch config device cp tl vl l w) in
  let ts := snd (fst ep) in
  let vs := snd ep in
  (List.map features ts = List.map (batch_features device) (fst (iterate tl w)) /\
   List.map posts ts = List.map (batch_posts device) (fst (iterate tl w))) /\
  exists w',
    List.map features vs = List.map (batch_features device) (fst (iterate vl w')) /\
    List.map posts vs = List.map (batch_posts device) (fst (iterate vl w')).
Proof.
  destruct (epoch_unfold config device cp tl vl l w)
    as (tb & w1 & l1 & ts & w2 & vb & w3 & l2 & a & vs & w4
        & Htb & Htrain & Hvb & Hval & ->).
  rewrite Htb. cbn [fst snd].
  pose proof (train_loop_effect config device cp tb 0%Z l w1) as Ht.
  rewrite Htrain in Ht. cbn [fst snd] in Ht. destruct Ht as (Hf & Hp & _).
  pose proof (val_loop_effect config device cp vb 0%Z l1 accum_init w3) as Hv.
  rewrite Hval in Hv. cbn [fst snd] in Hv. destruct Hv as ((Hvf & Hvp & _) & _).
  split; [auto|]. exists w2. rewrite Hvb. auto.
Qed.

(** X8.  In every report of a trial the values under 'precision', 'recall'
    and 'specificity' are tp / (tp + fp), tp / (tp + fn) and tn / (tn + fp)
    for the counters of the epoch that yields it. *)
Theorem precision_recall_specificity_are_standard (config : Config.t)
    (checkpoint_dir : option string) (w : world) :
  let run := fst (train_sinkhorn_vae config checkpoint_dir w) in
  Forall2 (fun p report =>
             let a := snd p in
             Py.get report "precision" =
               Some (PrimFloat.div (Py.float_of_int (tp_accum a))
                                   (Py.float_of_int (tp_accum a + fp_accum a))) /\
             Py.get report "recall" =
               Some (PrimFloat.div (Py.float_of_int (tp_accum a))
                                   (Py.float_of_int (tp_accum a + fn_accum a))) /\
             Py.get report "specificity" =
               Some (PrimFloat.div (Py.float_of_int (tn_accum a))
                                   (Py.float_of_int (tn_accum a + fp_accum a))))
          (List.firstn (List.length (yields run)) (epoch_log run)) (yields run).
Proof.
  intros run. eapply Forall2_impl; [apply trial_reports|].
  intros [bn a] report Hrep. cbn [fst snd] in *.
  apply epoch_report_content in Hrep. destruct Hrep as (n & _ & ->).
  repeat split; reflexivity.
Qed.

End EpochStructure.

(** ** The device *)

Section Device.

Context `{Torch}.

(** X9.  Only the device 'cuda:0' is ever replaced.  When the configured
    device is another one, or CUDA is available, nothing is printed and the
    trial is the rest of the function run with the device as configured
    -- also for a device such as 'cuda:1' on a machine without CUDA. *)
Theorem other_devices_are_used_as_configured (config : Config.t)
    (checkpoint_dir : option string) (w : world) :
  Config.device config <> "cuda:0" \/ torch_cuda_is_available w = true ->
  select_device config w = (Config.device config, []) /\
  train_sinkhorn_vae config checkpoint_dir w =
    train_on (Config.device config) config checkpoint_dir w /\
  printed (fst (train_sinkhorn_vae config checkpoint_dir w)) = [].
Proof.
  intros Hkeep.
  assert (Hsel : select_device config w = (Config.device config, [])).
  { unfold select_device.
    destruct (String.eqb_spec (Config.device config) "cuda:0") as [Heq|Hne];
      [|reflexivity].
    destruct Hkeep as [Hne|Hcuda]; [contradiction|]. rewrite Hcuda. reflexivity. }
  assert (Hprint : printed (fst (train_on (Config.device config) config checkpoint_dir w))
                   = []).
  { destruct (train_on_epochs (Config.device config) config checkpoint_dir w)
      as (cp & tl & vl & l & w' & ->).
    apply epochs_print_nothing. }
  assert (Hrun : train_sinkhorn_vae config checkpoint_dir w =
                 train_on (Config.device config) config checkpoint_dir w).
  { unfold train_sinkhorn_vae. rewrite Hsel.
    destruct (train_on (Config.device config) config checkpoint_dir w) as [r w'].
    cbn [fst] in Hprint. destruct r. cbn in *. subst. reflexivity. }
  split; [exact Hsel|]. split; [exact Hrun|]. rewrite Hrun. exact Hprint.
Qed.




End Device.

(** ** The further properties on concrete inputs *)

Lemma mixed_report_is_a_mean :
  let ep := fst (@epoch Toy.torch Toy.config0 "cpu" [0.5%float]
                   (Toy.train_data Toy.mixed) (Toy.val_data Toy.mixed)
                   Cases.start Toy.mixed) in
  epoch_report (l_batch_num (fst (fst (fst ep)))) (snd (fst (fst ep)))
    = inr Cases.mixed_report /\
  snd ep <> [] /\
  Py.get Cases.mixed_report "total_loss" = Some (@mean_over Toy.torch loss (snd ep)).
Proof.
  intros ep.
  assert (Hrep : epoch_report (l_batch_num (fst (fst (fst ep)))) (snd (fst (fst ep)))
                 = inr Cases.mixed_report) by (vm_compute; reflexivity).
  split; [exact Hrep|].
  destruct (@reported_losses_are_validation_means Toy.torch Toy.config0 "cpu"
              [0.5%float] (Toy.train_data Toy.mixed) (Toy.val_data Toy.mixed)
              Cases.start Toy.mixed Cases.mixed_report Hrep) as (Hne & Htotal & _).
  split; [exact Hne | exact Htotal].
Defined.

Lemma no_validation_data_no_report :
  let tl := Toy.train_data Cases.no_validation in
  let vl := Toy.val_data Cases.no_validation in
  let run :=
    fst (@epochs Toy.torch Toy.config0 "cpu" [0.5%float] tl vl 2 Cases.start
           Cases.no_validation) in
  (forall w', fst (@iterate Toy.torch vl w') = []) /\
  yields run = [] /\ raised run = Some Py.ZeroDivisionError.
Proof.
  intros tl vl run.
  assert (Hempty : forall w', fst (@iterate Toy.torch vl w') = [])
    by (intros w'; reflexivity).
  split; [exact Hempty|].
  exact (@epoch_without_validation_never_reports Toy.torch Toy.config0 "cpu"
           [0.5%float] tl vl 1 Cases.start Cases.no_validation Hempty).
Defined.

Lemma mixed_predictions_are_counted_once :
  let ep := fst (@epoch Toy.torch Toy.config0 "cpu" [0.5%float]
                   (Toy.train_data Toy.mixed) (Toy.val_data Toy.mixed)
                   Cases.start Toy.mixed) in
  let a := snd (fst (fst ep)) in
  Forall (@binary_labels Toy.torch Toy.config0) (snd ep) /\
  (tp_accum a + fp_accum a + tn_accum a + fn_accum a = 5)%Z.
Proof.
  intros ep a.
  assert (Hlab : Forall (@binary_labels Toy.torch Toy.config0) (snd ep)).
  { vm_compute. repeat constructor. }
  split; [exact Hlab|].
  exact (eq_trans
           (@binary_labels_are_counted_once Toy.torch Toy.config0 "cpu" [0.5%float]
              (Toy.train_data Toy.mixed) (Toy.val_data Toy.mixed)
              Cases.start Toy.mixed Hlab)
           eq_refl).
Defined.

Lemma second_gpu_is_not_replaced :
  Config.device Cases.config_cuda1 <> "cuda:0" /\
  @torch_cuda_is_available Toy.torch Toy.mixed = false /\
  @select_device Toy.torch Cases.config_cuda1 Toy.mixed = ("cuda:1", []) /\
  printed (fst (@train_sinkhorn_vae Toy.torch Cases.config_cuda1 None Toy.mixed)) = [].
Proof.
  assert (Hne : Config.device Cases.config_cuda1 <> "cuda:0") by discriminate.
  destruct (@other_devices_are_used_as_configured Toy.torch Cases.config_cuda1 None
              Toy.mixed (or_introl Hne)) as (Hsel & _ & Hprint).
  split; [exact Hne|]. split; [reflexivity|]. split; [exact Hsel | exact Hprint].
Defined.

